(** * HloExecutionProfile: per-instruction cycle counts and their report

    A shallow embedding of
    [tensorflow/compiler/xla/service/hlo_execution_profile.cc]:
    [AddProfileResult], [GetProfileResult] and [ToString].

    The two containers of the class are finite maps and sets keyed by
    addresses.  Everything the file only calls (the HLO graph, the cost
    analysis visitor, double arithmetic, the printf and human-readable
    formatters, the metric table, the iteration order of the hash map and
    [std::sort]) is an interface: a type class whose fields are the called
    functions, with laws only where the C++ standard gives some. *)

From Stdlib Require Import ZArith Permutation Ascii Floats.
From stdpp Require Import base decidable option list gmap sorting strings pretty.

Local Open Scope Z_scope.

(** ** Machine integers *)

(** [uint64] and [int64] values are integers in [Z]; the conversion of a
    [uint64] to an [int64] parameter wraps around modulo 2^64. *)
Definition to_int64 (z : Z) : Z := (z + 2 ^ 63) `mod` 2 ^ 64 - 2 ^ 63.

(** ** Pointers *)

(** [const HloInstruction*] and [const HloComputation*] are addresses;
    address 0 is [nullptr]. The objects outlive the profile, so what is read
    through a pointer is a function of the address. *)
Abbreviation InstrPtr := N.
Abbreviation CompPtr := N.
Definition nullptr : N := 0%N.

(** ** Collaborators *)

(** The HLO graph as seen through the accessors the file calls.
    [total_cycles_executed] is the member function of the class header that
    [ToString] reads the total from; no function of this file writes it. *)
Class HloGraph := {
  parent : InstrPtr → CompPtr;                 (* HloInstruction::parent() *)
  hlo_ToString : InstrPtr → string;            (* HloInstruction::ToString() *)
  hlo_ToString_compact : InstrPtr → string;    (* ToString(compact_operands=true) *)
  ToCategory : InstrPtr → string;              (* HloInstruction::ToCategory() *)
  name : CompPtr → string;                     (* HloComputation::name() *)
  root_instruction : CompPtr → InstrPtr;       (* HloComputation::root_instruction() *)
  total_cycles_executed : CompPtr → Z;         (* total_cycles_executed(computation) *)
}.

(** [double] arithmetic, as far as the file uses it. [dlit m e] is the
    literal [m]e[e]; [of_int] is the conversion of an integer operand. *)
Class DoubleArith := {
  double : Type;
  dlit : Z → Z → double;
  of_int : Z → double;
  fdiv : double → double → double;
  fmul : double → double → double;
  fge : double → double → bool;
  double_to_int64 : double → Z;
}.

Inductive Status := OK | Error (msg : string).

Definition ok (s : Status) : bool :=
  match s with OK => true | Error _ => false end.

(** The state of the cost analysis visitor after the traversal. *)
Record HloCostAnalysis := {
  flop_count : InstrPtr → Z;
  bytes_accessed : InstrPtr → Z;
}.

(** [Accept shape_size root] is [root->Accept(&cost_analysis)] on a visitor
    built from [shape_size]: the status and the visitor it leaves. *)
Class CostAnalysisPass := {
  ShapeSizeFunction : Type;
  Accept : ShapeSizeFunction → InstrPtr → Status * HloCostAnalysis;
}.

Section with_double.
Context {arith : DoubleArith}.

Record DeviceDescription := { clock_rate_ghz : double }.

(** printf's [%W.Pf] and the human-readable formatters of
    [strings/numbers.h] and [xla/util.h]. [HumanReadableNumBytes] takes an
    [int64]; a [double] argument is converted on the way in. *)
Class Formatters := {
  printf_f : nat → nat → double → string;
  HumanReadableNumBytes : Z → string;
  HumanReadableNumFlops : Z → double → string;
  HumanReadableElapsedTime : double → string;
}.

(** [MetricTableReport::Entry] and the table it is added to. *)
Record Entry := {
  text : string;
  short_text : string;
  category_text : string;
  metric : double;
}.

Class MetricTable := {
  MetricTableReport : Type;
  new_table : MetricTableReport;
  SetMetricName : string → MetricTableReport → MetricTableReport;
  SetEntryName : string → MetricTableReport → MetricTableReport;
  SetShowCategoryTable : MetricTableReport → MetricTableReport;
  AddEntry : Entry → MetricTableReport → MetricTableReport;
  MakeReport : double → MetricTableReport → string;
}.

End with_double.

Arguments DeviceDescription {_}.
Arguments Entry {_}.

(** ** What the C++ standard library leaves open *)

Definition Item : Type := InstrPtr * Z.

(** The order in which a range-for visits a [std::unordered_map]: some
    enumeration of its entries. *)
Class UnorderedIteration := {
  iterate : gmap N Z → list Item;
  iterate_perm : ∀ m, iterate m ≡ₚ map_to_list m;
}.

(** A comparator [comp] as [std::sort] requires it: a strict weak
    ordering. *)
Record StrictWeakOrdering {A} (comp : A → A → bool) : Prop := {
  swo_irrefl : ∀ x, comp x x = false;
  swo_trans : ∀ x y z, comp x y = true → comp y z = true → comp x z = true;
  swo_equiv_trans : ∀ x y z,
    comp x y = false → comp y x = false →
    comp y z = false → comp z y = false →
    comp x z = false ∧ comp z x = false;
}.

(** [std::sort(first, last, comp)]: the result is a rearrangement of the
    input in which no element is [comp]-less than an earlier one. Nothing is
    said about the order of equivalent elements. *)
Class StdSort := {
  std_sort : ∀ {A}, (A → A → bool) → list A → list A;
  std_sort_perm : ∀ A (comp : A → A → bool) l, std_sort comp l ≡ₚ l;
  std_sort_sorted : ∀ A (comp : A → A → bool) l,
    StrictWeakOrdering comp →
    StronglySorted (λ x y, comp y x = false) (std_sort comp l);
}.

(** ** The profile *)

Record HloExecutionProfile := {
  hlo_to_cycles_taken_ : gmap N Z;       (* unordered_map<const HloInstruction*, uint64> *)
  profiled_computations_ : gset N;       (* unordered_set<const HloComputation*> *)
}.

(** A freshly constructed profile. *)
Definition empty_profile : HloExecutionProfile :=
  {| hlo_to_cycles_taken_ := ∅; profiled_computations_ := ∅ |}.

(** What a call of [ToString] does: it returns a string, or the [CHECK_GE]
    on the clock rate fails and the process is aborted. *)
Inductive outcome := Returns (s : string) | CheckFailed.

(** The text pieces of the report. *)
Definition newline_tab : string := String "010"%char (String "009"%char EmptyString).
Definition newline : string := String "010"%char EmptyString.
Definition unknown : string := "<unknown>".
Definition none : string := "<none>".
Definition total_label : string := "[total]".
Definition zero_cycles_marker : string := "****** 0 total cycles ******" +:+ newline.

(** printf's right-justified minimum field width ([%15lld], [%18s],
    [%12s]). *)
Definition pad_left (width : nat) (s : string) : string :=
  String.concat "" (replicate (width - String.length s)%nat " ") +:+ s.

Section profile.
Context {graph : HloGraph} {arith : DoubleArith} {analysis : CostAnalysisPass}
        {formatters : Formatters} {tables : MetricTable}
        {order : UnorderedIteration} {sorting : StdSort}.

Definition AddProfileResult (hlo : InstrPtr) (cycles_taken : Z)
    (p : HloExecutionProfile) : HloExecutionProfile :=
  {| hlo_to_cycles_taken_ := <[hlo := cycles_taken]> (hlo_to_cycles_taken_ p);
     profiled_computations_ := {[parent hlo]} ∪ profiled_computations_ p |}.

Definition GetProfileResult (hlo : InstrPtr) (p : HloExecutionProfile) : Z :=
  match hlo_to_cycles_taken_ p !! hlo with
  | None => 0
  | Some second => second
  end.

(** *** The pieces of [ToString] *)

(** Lines 60-65: the loop that collects the items of the computation. *)
Definition collect_items (computation : CompPtr) (entries : list Item)
    : list Item :=
  fold_left
    (λ items item,
       if decide (parent item.1 = computation) then items ++ [item] else items)
    entries [].

(** Lines 66-68. *)
Definition custom_less (lhs rhs : Item) : bool := bool_decide (lhs.2 > rhs.2).

(** Lines 75-77. *)
Definition cycles_to_microseconds (clock_rate_ghz : double) (cycles : double)
    : double :=
  fdiv (fdiv cycles clock_rate_ghz) (dlit 1000 0).

(** Lines 82-92 of [append_item]: the two bandwidth fields. *)
Definition bandwidth_fields (clock_rate_ghz : double)
    (cycles bytes_accessed : Z) : string * string :=
  let nsecs := fdiv (of_int cycles) clock_rate_ghz in
  if bool_decide (cycles ≤ 0) || bool_decide (bytes_accessed < 0)
  then (unknown, unknown)
  else (HumanReadableNumBytes
          (double_to_int64 (fdiv (of_int bytes_accessed) (fdiv nsecs (dlit 1 9)))),
        HumanReadableNumBytes (bytes_accessed `quot` cycles)).

(** Lines 94-97 of [append_item]. *)
Definition cycles_percent (total_cycles cycles : Z) : double :=
  if bool_decide (total_cycles > 0)
  then fmul (fdiv (of_int cycles) (of_int total_cycles)) (of_int 100)
  else of_int 0.

(** Line 107 of [append_item]: the flops field. *)
Definition flops_field (clock_rate_ghz : double) (cycles flops : Z) : string :=
  let nsecs := fdiv (of_int cycles) clock_rate_ghz in
  if bool_decide (flops ≤ 0) then none else HumanReadableNumFlops flops nsecs.

(** Lines 101-108: the text the [Printf] of [append_item] builds. *)
Definition item_text (clock_rate_ghz : double) (total_cycles : Z)
    (cycles flops bytes_accessed : Z) (name : string) : string :=
  let '(bytes_per_sec, bytes_per_cycle) :=
    bandwidth_fields clock_rate_ghz cycles bytes_accessed in
  pad_left 15 (pretty cycles) +:+ " cycles (" +:+
  printf_f 6 2 (cycles_percent total_cycles cycles) +:+ "%) :: " +:+
  printf_f 12 1 (cycles_to_microseconds clock_rate_ghz (of_int cycles)) +:+
  " usec @ f_nom :: " +:+
  pad_left 18 (flops_field clock_rate_ghz cycles flops) +:+ " :: " +:+
  pad_left 12 bytes_per_sec +:+ "/s :: " +:+
  pad_left 12 bytes_per_cycle +:+ "/cycle :: " +:+
  name.

(** Lines 79-109: [append_item] appends the row to [result]. *)
Definition append_item (clock_rate_ghz : double) (total_cycles : Z)
    (result : string) (cycles flops bytes_accessed : Z) (name : string)
    : string :=
  result +:+ item_text clock_rate_ghz total_cycles cycles flops bytes_accessed name.

(** Lines 110-116: the header. *)
Definition header_text (computation : CompPtr) (clock_rate_ghz : double)
    (total_cycles : Z) : string :=
  "HLO execution profile for " +:+ name computation +:+ ": (" +:+
  HumanReadableElapsedTime
    (fdiv (fdiv (of_int total_cycles) clock_rate_ghz) (dlit 1 9)) +:+
  " @ f_nom)" +:+ newline_tab.

(** Lines 120-126: the three values a per-instruction row is built from. *)
Definition item_flops (cost_analysis : HloCostAnalysis) (hlo : InstrPtr) : Z :=
  if decide (hlo = nullptr) then -1 else flop_count cost_analysis hlo.

Definition item_bytes_accessed (cost_analysis : HloCostAnalysis)
    (hlo : InstrPtr) : Z :=
  if decide (hlo = nullptr) then -1 else bytes_accessed cost_analysis hlo.

Definition item_display (hlo : InstrPtr) : string :=
  if decide (hlo = nullptr) then none else hlo_ToString hlo.

(** Lines 119-127: the body of the loop over the sorted items. The
    [uint64] count becomes the [int64] parameter of [append_item]. *)
Definition append_row (cost_analysis : HloCostAnalysis)
    (clock_rate_ghz : double) (total_cycles : Z)
    (result : string) (item : Item) : string :=
  let hlo := item.1 in
  let result := result +:+ newline_tab in
  append_item clock_rate_ghz total_cycles result (to_int64 item.2)
    (item_flops cost_analysis hlo) (item_bytes_accessed cost_analysis hlo)
    (item_display hlo).

(** Lines 137-141: the table entry of an item. The [uint64] count is
    converted to [double] directly. *)
Definition make_entry (clock_rate_ghz : double) (item : Item) : Entry :=
  {| text := hlo_ToString item.1;
     short_text := hlo_ToString_compact item.1;
     category_text := ToCategory item.1;
     metric := cycles_to_microseconds clock_rate_ghz (of_int item.2) |}.

(** Lines 132-143: the table before [MakeReport]. *)
Definition build_table (clock_rate_ghz : double) (items : list Item)
    : MetricTableReport :=
  let table := new_table in
  let table := SetMetricName "microseconds" table in
  let table := SetEntryName "ops" table in
  let table := SetShowCategoryTable table in
  fold_left (λ table item, AddEntry (make_entry clock_rate_ghz item) table)
    items table.

(** *** [ToString] *)

Definition ToString (p : HloExecutionProfile) (computation : CompPtr)
    (device_description : DeviceDescription)
    (shape_size : ShapeSizeFunction) : outcome :=
  let '(analysis_status, cost_analysis) :=
    Accept shape_size (root_instruction computation) in
  if negb (ok analysis_status) then Returns "" else
  let items := collect_items computation (iterate (hlo_to_cycles_taken_ p)) in
  let items := std_sort custom_less items in
  let result := "" in
  let total_cycles := to_int64 (total_cycles_executed computation) in
  let clock_rate_ghz := clock_rate_ghz device_description in
  if negb (fge clock_rate_ghz (dlit 1 (-9))) then CheckFailed else
  let result := result +:+ header_text computation clock_rate_ghz total_cycles in
  let result :=
    append_item clock_rate_ghz total_cycles result total_cycles (-1) (-1)
      total_label in
  let result :=
    fold_left (append_row cost_analysis clock_rate_ghz total_cycles)
      items result in
  let result :=
    if bool_decide (total_cycles ≤ 0)
    then result +:+ zero_cycles_marker
    else result +:+
         MakeReport (cycles_to_microseconds clock_rate_ghz (of_int total_cycles))
           (build_table clock_rate_ghz items) in
  Returns result.

(** *** Calls on a profile *)

Inductive call :=
  | CallAddProfileResult (hlo : InstrPtr) (cycles_taken : Z)
  | CallGetProfileResult (hlo : InstrPtr)
  | CallToString (computation : CompPtr)
      (device_description : DeviceDescription) (shape_size : ShapeSizeFunction).

(** The profile after a call, when the process survives it: the two
    [const] member functions leave the object as it is, and a failed
    [CHECK] leaves no profile at all. *)
Definition exec (c : call) (p : HloExecutionProfile)
    : option HloExecutionProfile :=
  match c with
  | CallAddProfileResult hlo cycles_taken =>
      Some (AddProfileResult hlo cycles_taken p)
  | CallGetProfileResult hlo =>
      let _ := GetProfileResult hlo p in Some p
  | CallToString computation device_description shape_size =>
      match ToString p computation device_description shape_size with
      | Returns _ => Some p
      | CheckFailed => None
      end
  end.

Fixpoint run (cs : list call) (p : HloExecutionProfile)
    : option HloExecutionProfile :=
  match cs with
  | [] => Some p
  | c :: cs => p' ← exec c p; run cs p'
  end.

End profile.

(** ** The report as rows *)

(** A row of the flat report is one call of [append_item]; these are its
    arguments. *)
Record Row := {
  row_cycles : Z;
  row_flops : Z;
  row_bytes_accessed : Z;
  row_name : string;
}.

Section report.
Context {graph : HloGraph} {arith : DoubleArith} {analysis : CostAnalysisPass}
        {formatters : Formatters} {tables : MetricTable}
        {order : UnorderedIteration} {sorting : StdSort}.

Definition total_row (total_cycles : Z) : Row :=
  {| row_cycles := total_cycles; row_flops := -1; row_bytes_accessed := -1;
     row_name := total_label |}.

Definition item_row (cost_analysis : HloCostAnalysis) (item : Item) : Row :=
  {| row_cycles := to_int64 item.2;
     row_flops := item_flops cost_analysis item.1;
     row_bytes_accessed := item_bytes_accessed cost_analysis item.1;
     row_name := item_display item.1 |}.

Definition row_text (clock_rate_ghz : double) (total_cycles : Z) (r : Row)
    : string :=
  item_text clock_rate_ghz total_cycles
    (row_cycles r) (row_flops r) (row_bytes_accessed r) (row_name r).

(** The rows after the first, each behind its line break. *)
Definition more_rows_text (clock_rate_ghz : double) (total_cycles : Z)
    (rows : list Row) : string :=
  foldr (λ r s, newline_tab +:+ row_text clock_rate_ghz total_cycles r +:+ s)
    "" rows.

(** The items [ToString] reports on, in the order of their rows. *)
Definition report_items (p : HloExecutionProfile) (computation : CompPtr)
    : list Item :=
  std_sort custom_less
    (collect_items computation (iterate (hlo_to_cycles_taken_ p))).

(** The flat report: header, total row, one row per item. *)
Definition flat_report (cost_analysis : HloCostAnalysis)
    (clock_rate_ghz : double) (total_cycles : Z) (computation : CompPtr)
    (items : list Item) : string :=
  header_text computation clock_rate_ghz total_cycles +:+
  row_text clock_rate_ghz total_cycles (total_row total_cycles) +:+
  more_rows_text clock_rate_ghz total_cycles (item_row cost_analysis <$> items).

(** The entries of the stored map whose instruction belongs to the
    computation. *)
Definition observations_of (p : HloExecutionProfile) (computation : CompPtr)
    : gmap N Z :=
  filter (λ kv, parent kv.1 = computation) (hlo_to_cycles_taken_ p).

(** What follows the rows: the marker or the rendered table (lines
    129-145). *)
Definition report_trailer (clock_rate_ghz : double) (total_cycles : Z)
    (items : list Item) : string :=
  if bool_decide (total_cycles ≤ 0)
  then zero_cycles_marker
  else MakeReport (cycles_to_microseconds clock_rate_ghz (of_int total_cycles))
         (build_table clock_rate_ghz items).

End report.

(** ** Calls and readings used in the statements *)

(** The calls that go through a [const] member function. *)
Definition read_only `{DoubleArith, CostAnalysisPass} (c : call) : bool :=
  match c with
  | CallAddProfileResult _ _ => false
  | CallGetProfileResult _ | CallToString _ _ _ => true
  end.

(** The calls that record a count for [hlo]. *)
Definition records `{DoubleArith, CostAnalysisPass} (hlo : N) (c : call) : bool :=
  match c with
  | CallAddProfileResult hlo' _ => bool_decide (hlo' = hlo)
  | CallGetProfileResult _ | CallToString _ _ _ => false
  end.

(** The reading of the total row in which the flops field shows the same
    sentinel as the two bandwidth fields. *)
Definition total_row_reads_unknown `{DoubleArith, !Formatters}
    (clock_rate_ghz : double) (total_cycles : Z) : Prop :=
  flops_field clock_rate_ghz total_cycles (row_flops (total_row total_cycles))
  = unknown
  ∧ bandwidth_fields clock_rate_ghz total_cycles
      (row_bytes_accessed (total_row total_cycles))
    = (unknown, unknown).

(** ** Call sequences *)

(** The [ToString] calls that get as far as the check of the clock rate and
    fail it. *)
Definition check_fails `{HloGraph, DoubleArith, CostAnalysisPass} (c : call)
    : bool :=
  match c with
  | CallToString computation device_description shape_size =>
      ok (Accept shape_size (root_instruction computation)).1
      && negb (fge (clock_rate_ghz device_description) (dlit 1 (-9)))
  | CallAddProfileResult _ _ | CallGetProfileResult _ => false
  end.

(** The [AddProfileResult] calls of a sequence, applied in their order. *)
Definition apply_adds `{HloGraph, DoubleArith, CostAnalysisPass}
    (cs : list call) (p : HloExecutionProfile) : HloExecutionProfile :=
  fold_left
    (λ p c,
       match c with
       | CallAddProfileResult hlo cycles_taken =>
           AddProfileResult hlo cycles_taken p
       | CallGetProfileResult _ | CallToString _ _ _ => p
       end)
    cs p.

(** The count given by the last call of a sequence that records [hlo]. *)
Fixpoint last_recorded `{DoubleArith, CostAnalysisPass} (hlo : N)
    (cs : list call) : option Z :=
  match cs with
  | [] => None
  | c :: cs =>
      match last_recorded hlo cs with
      | Some cycles => Some cycles
      | None =>
          match c with
          | CallAddProfileResult hlo' cycles =>
              if decide (hlo' = hlo) then Some cycles else None
          | CallGetProfileResult _ | CallToString _ _ _ => None
          end
      end
  end.

(** ** Two sorting algorithms that meet the contract of [std::sort] *)

(** Insertion before the first element that is not less than [x], and
    insertion behind the last element that [x] is not less than: they differ
    on equivalent elements only. *)
Fixpoint insert_front {A} (comp : A → A → bool) (x : A) (l : list A) : list A :=
  match l with
  | [] => [x]
  | y :: l' => if comp y x then y :: insert_front comp x l' else x :: l
  end.

Fixpoint insert_back {A} (comp : A → A → bool) (x : A) (l : list A) : list A :=
  match l with
  | [] => [x]
  | y :: l' => if comp x y then x :: l else y :: insert_back comp x l'
  end.

Definition sort_front {A} (comp : A → A → bool) (l : list A) : list A :=
  foldr (insert_front comp) [] l.

Definition sort_back {A} (comp : A → A → bool) (l : list A) : list A :=
  foldr (insert_back comp) [] l.

(** The iteration order of the map's own enumeration. *)
Definition map_order : UnorderedIteration :=
  {| iterate := map_to_list; iterate_perm := λ m, reflexivity _ |}.

(** The same enumeration, backwards. *)
Definition reverse_order : UnorderedIteration :=
  {| iterate := λ m, reverse (map_to_list m);
     iterate_perm := λ m, reverse_Permutation (map_to_list m) |}.

(** ** IEEE doubles and plain formatters *)

(** The interfaces read on the kernel's binary64 numbers. *)
Definition float_of_int (z : Z) : float :=
  SF2Prim (binary_normalize 53 1024 z 0 false).

(** The literals of this file: [1000.0] and [1e9] are integers, [1e-9] is the
    rounded quotient of two integers that are doubles. *)
Definition float_lit (m e : Z) : float :=
  if bool_decide (0 ≤ e) then float_of_int (m * 10 ^ e)
  else PrimFloat.div (float_of_int m) (float_of_int (10 ^ (- e))).

(** Truncation towards zero. *)
Definition float_to_int64 (f : float) : Z :=
  match Prim2SF f with
  | S754_finite s m e =>
      let magnitude :=
        if bool_decide (0 ≤ e) then Z.pos m * 2 ^ e else Z.pos m `div` 2 ^ (- e) in
      if s then - magnitude else magnitude
  | _ => 0
  end.

Definition float_arith : DoubleArith :=
  {| double := float;
     dlit := float_lit;
     of_int := float_of_int;
     fdiv := PrimFloat.div;
     fmul := PrimFloat.mul;
     fge := λ x y, PrimFloat.leb y x;
     double_to_int64 := float_to_int64 |}.

(** [m * 2^e] rounded to an integer, ties to even. *)
Definition round_scaled (m e : Z) : Z :=
  let num := if bool_decide (0 ≤ e) then m * 2 ^ e else m in
  let den := if bool_decide (0 ≤ e) then 1 else 2 ^ (- e) in
  let q := num `div` den in
  let r := num `mod` den in
  if bool_decide (2 * r < den) then q
  else if bool_decide (den < 2 * r) then q + 1
  else if Z.even q then q else q + 1.

Definition zero_pad (width : nat) (s : string) : string :=
  String.concat "" (replicate (width - String.length s)%nat "0") +:+ s.

(** printf's [%W.Pf] on a double, for a precision of at least one digit. *)
Definition float_printf_f (width prec : nat) (f : float) : string :=
  let digits (n : Z) : string :=
    pretty (n `div` 10 ^ Z.of_nat prec) +:+ "." +:+
    zero_pad prec (pretty (n `mod` 10 ^ Z.of_nat prec)) in
  let sign (s : bool) : string := if s then "-" else "" in
  pad_left width
    match Prim2SF f with
    | S754_zero s => sign s +:+ digits 0
    | S754_infinity s => sign s +:+ "inf"
    | S754_nan => "nan"
    | S754_finite s m e =>
        sign s +:+ digits (round_scaled (Z.pos m * 10 ^ Z.of_nat prec) e)
    end.

Definition plain_formatters : @Formatters float_arith :=
  @Build_Formatters float_arith
    (* printf_f *) float_printf_f
    (* HumanReadableNumBytes *) (λ num_bytes, pretty num_bytes +:+ "B")
    (* HumanReadableNumFlops *)
    (λ flops nanoseconds,
       float_printf_f 0 2
         (PrimFloat.mul (PrimFloat.div (float_of_int flops) nanoseconds)
            (float_lit 1 9)) +:+ "FLOP/s")
    (* HumanReadableElapsedTime *)
    (λ seconds, float_printf_f 0 9 seconds +:+ " s").

(** A table that keeps its entries in the order they were added and prints
    one line per entry. *)
Record ListTable := {
  metric_name : string;
  entry_name : string;
  show_category_table : bool;
  entries : list (@Entry float_arith);
}.

Definition list_table : @MetricTable float_arith :=
  {| MetricTableReport := ListTable;
     new_table :=
       {| metric_name := ""; entry_name := ""; show_category_table := false;
          entries := [] |};
     SetMetricName := λ s t,
       {| metric_name := s; entry_name := entry_name t;
          show_category_table := show_category_table t; entries := entries t |};
     SetEntryName := λ s t,
       {| metric_name := metric_name t; entry_name := s;
          show_category_table := show_category_table t; entries := entries t |};
     SetShowCategoryTable := λ t,
       {| metric_name := metric_name t; entry_name := entry_name t;
          show_category_table := true; entries := entries t |};
     AddEntry := λ e t,
       {| metric_name := metric_name t; entry_name := entry_name t;
          show_category_table := show_category_table t;
          entries := entries t ++ [e] |};
     MakeReport := λ expected_metric_sum t,
       foldr
         (λ (e : @Entry float_arith) s,
            float_printf_f 12 3 (@metric float_arith e) +:+ " " +:+ metric_name t +:+ " " +:+
            short_text e +:+ " (" +:+ category_text e +:+ ")" +:+ newline +:+ s)
         "" (entries t) |}.

(** ** A small graph *)

(** Instructions 1 and 2 belong to computation 10, instruction 3 to
    computation 20, instructions 4 and 5 to computation 30. The roots are 11,
    21 and 31; the cost analysis fails on computation 20. *)
Definition small_graph : HloGraph :=
  {| parent := λ hlo,
       if decide (hlo ∈ [1; 2; 11]%N) then 10%N
       else if decide (hlo ∈ [3; 21]%N) then 20%N
       else 30%N;
     hlo_ToString := λ hlo, "%i" +:+ pretty hlo +:+ " = f32[8]{0} add(...)";
     hlo_ToString_compact := λ hlo, "%i" +:+ pretty hlo +:+ " = add";
     ToCategory := λ hlo, "non-fusion elementwise";
     name := λ computation, "computation." +:+ pretty computation;
     root_instruction := λ computation, (computation + 1)%N;
     total_cycles_executed := λ computation,
       if decide (computation = 10%N) then 500 else 0 |}.

Definition small_analysis : CostAnalysisPass :=
  {| ShapeSizeFunction := unit;
     Accept := λ shape_size root,
       (if decide (root = 21%N) then Error "unimplemented" else OK,
        {| flop_count := λ hlo, if decide (hlo = 1%N) then 8 else 0;
           bytes_accessed := λ hlo, if decide (hlo = 3%N) then -1 else 96 |}) |}.

(** The store of the example: A (1) took 100 cycles and B (2) took 300 in
    computation 10; instruction 3 of computation 20 took 7. *)
Definition small_profile : HloExecutionProfile :=
  @AddProfileResult small_graph 2%N 300
    (@AddProfileResult small_graph 3%N 7
       (@AddProfileResult small_graph 1%N 100 empty_profile)).

Definition any_shape_size : @ShapeSizeFunction small_analysis := tt.

Definition one_ghz : @DeviceDescription float_arith :=
  @Build_DeviceDescription float_arith (float_of_int 1).

Definition stopped_clock : @DeviceDescription float_arith :=
  @Build_DeviceDescription float_arith (float_of_int 0).

(** Instructions 4 and 5 of computation 30 both took 5 cycles. *)
Definition tied_profile : HloExecutionProfile :=
  @AddProfileResult small_graph 4%N 5
    (@AddProfileResult small_graph 5%N 5 empty_profile).

(** The last character of a string. *)
Fixpoint last_char (s : string) : option ascii :=
  match s with
  | EmptyString => None
  | String a EmptyString => Some a
  | String _ s' => last_char s'
  end.

(** * Lemmas *)

(** ** Strings *)

Lemma string_app_assoc (s1 s2 s3 : string) :
  (s1 +:+ s2) +:+ s3 = s1 +:+ (s2 +:+ s3).
Proof.
  induction s1 as [|a s1 IH]; [done |].
  change (String a ((s1 +:+ s2) +:+ s3) = String a (s1 +:+ (s2 +:+ s3))).
  by rewrite IH.
Qed.

Lemma string_app_nil_r (s : string) : s +:+ "" = s.
Proof.
  induction s as [|a s IH]; [done |].
  change (String a (s +:+ "") = String a s). by rewrite IH.
Qed.

(** ** Sorted lists *)

Lemma StronglySorted_weaken {A} (R1 R2 : relation A) (l : list A) :
  (∀ x y, R1 x y → R2 x y) → StronglySorted R1 l → StronglySorted R2 l.
Proof.
  intros Himpl. induction 1 as [|x l Hl IH Hx]; constructor; [done |].
  eapply Forall_impl; [exact Hx | auto].
Qed.

(** ** The comparator *)

Lemma custom_less_gt (lhs rhs : Item) :
  custom_less lhs rhs = true ↔ lhs.2 > rhs.2.
Proof. unfold custom_less. by rewrite bool_decide_eq_true. Qed.

Lemma custom_less_le (lhs rhs : Item) :
  custom_less lhs rhs = false ↔ lhs.2 ≤ rhs.2.
Proof. unfold custom_less. rewrite bool_decide_eq_false. lia. Qed.

Lemma custom_less_strict_weak : StrictWeakOrdering custom_less.
Proof.
  split.
  - intros x. apply custom_less_le. lia.
  - intros x y z. rewrite !custom_less_gt. lia.
  - intros x y z. rewrite !custom_less_le. lia.
Qed.

(** ** The store *)

Section store_facts.
Context {graph : HloGraph}.

Lemma GetProfileResult_lookup (hlo : N) (p : HloExecutionProfile) :
  GetProfileResult hlo p = default 0 (hlo_to_cycles_taken_ p !! hlo).
Proof. unfold GetProfileResult. by destruct (_ !! _). Qed.

Lemma GetProfileResult_Add_eq (hlo : N) (c : Z) (p : HloExecutionProfile) :
  GetProfileResult hlo (AddProfileResult hlo c p) = c.
Proof. rewrite GetProfileResult_lookup. simpl. by rewrite lookup_insert_eq. Qed.

Lemma GetProfileResult_Add_ne (a b : N) (c : Z) (p : HloExecutionProfile) :
  a ≠ b →
  GetProfileResult b (AddProfileResult a c p) = GetProfileResult b p.
Proof.
  intros Hne. rewrite !GetProfileResult_lookup. simpl.
  by rewrite lookup_insert_ne.
Qed.

Lemma profiled_Add_mono (hlo : N) (c : Z) (p : HloExecutionProfile) :
  profiled_computations_ p ⊆ profiled_computations_ (AddProfileResult hlo c p).
Proof. simpl. set_solver. Qed.

End store_facts.

(** ** The loops of [ToString] *)

Section loops.
Context {graph : HloGraph} {arith : DoubleArith} {analysis : CostAnalysisPass}
        {formatters : Formatters} {tables : MetricTable}
        {order : UnorderedIteration} {sorting : StdSort}.

Lemma collect_items_acc (computation : N) (entries acc : list Item) :
  fold_left
    (λ items item,
       if decide (parent item.1 = computation) then items ++ [item] else items)
    entries acc
  = acc ++ filter (λ item, parent item.1 = computation) entries.
Proof.
  revert acc. induction entries as [|item entries IH]; intros acc; simpl.
  - by rewrite app_nil_r.
  - rewrite IH, filter_cons. destruct (decide _); [|done].
    by rewrite <- app_assoc.
Qed.

Lemma collect_items_filter (computation : N) (entries : list Item) :
  collect_items computation entries
  = filter (λ item, parent item.1 = computation) entries.
Proof. unfold collect_items. by rewrite collect_items_acc. Qed.

Lemma append_rows (cost_analysis : HloCostAnalysis) (clock_rate_ghz : double)
    (total_cycles : Z) (items : list Item) (result : string) :
  fold_left (append_row cost_analysis clock_rate_ghz total_cycles) items result
  = result +:+
    more_rows_text clock_rate_ghz total_cycles (item_row cost_analysis <$> items).
Proof.
  revert result. induction items as [|item items IH]; intros result; simpl.
  - by rewrite string_app_nil_r.
  - rewrite IH. unfold append_row, append_item, row_text. simpl.
    by rewrite !string_app_assoc.
Qed.

Lemma build_table_entries (clock_rate_ghz : double) (items : list Item) :
  build_table clock_rate_ghz items
  = fold_left (λ table entry, AddEntry entry table)
      (make_entry clock_rate_ghz <$> items)
      (SetShowCategoryTable
         (SetEntryName "ops" (SetMetricName "microseconds" new_table))).
Proof.
  unfold build_table.
  generalize (SetShowCategoryTable
                (SetEntryName "ops" (SetMetricName "microseconds" new_table))).
  induction items as [|item items IH]; intros table; simpl; [done | apply IH].
Qed.

(** The items of the report are the stored observations of the
    computation, each once. *)
Lemma report_items_perm (p : HloExecutionProfile) (computation : N) :
  report_items p computation ≡ₚ map_to_list (observations_of p computation).
Proof.
  unfold report_items, observations_of.
  rewrite std_sort_perm, collect_items_filter, iterate_perm.
  rewrite map_filter_alt.
  rewrite map_to_list_to_map; [done |].
  apply NoDup_fmap_fst.
  - intros k x y Hx%list_elem_of_filter Hy%list_elem_of_filter.
    destruct Hx as [_ Hx], Hy as [_ Hy].
    apply elem_of_map_to_list in Hx, Hy. congruence.
  - apply NoDup_filter, NoDup_map_to_list.
Qed.

Lemma elem_of_report_items (p : HloExecutionProfile) (computation hlo : N)
    (cycles : Z) :
  (hlo, cycles) ∈ report_items p computation ↔
  hlo_to_cycles_taken_ p !! hlo = Some cycles ∧ parent hlo = computation.
Proof.
  rewrite report_items_perm, elem_of_map_to_list.
  unfold observations_of. rewrite map_lookup_filter_Some. done.
Qed.

Lemma NoDup_report_items (p : HloExecutionProfile) (computation : N) :
  NoDup (report_items p computation).*1.
Proof. rewrite report_items_perm. apply NoDup_fst_map_to_list. Qed.

Lemma length_report_items (p : HloExecutionProfile) (computation : N) :
  length (report_items p computation) = size (observations_of p computation).
Proof. rewrite report_items_perm. apply length_map_to_list. Qed.

(** The rows come out by non-increasing stored count. *)
Lemma report_items_sorted (p : HloExecutionProfile) (computation : N) :
  StronglySorted (λ earlier later : Item, later.2 ≤ earlier.2)
    (report_items p computation).
Proof.
  unfold report_items.
  eapply StronglySorted_weaken; [| apply std_sort_sorted, custom_less_strict_weak].
  intros x y Hle%custom_less_le. exact Hle.
Qed.

Lemma ToString_failed_check (p : HloExecutionProfile) (computation : N)
    (device_description : DeviceDescription) (shape_size : ShapeSizeFunction) :
  ok (Accept shape_size (root_instruction computation)).1 = true →
  fge (clock_rate_ghz device_description) (dlit 1 (-9)) = false →
  ToString p computation device_description shape_size = CheckFailed.
Proof.
  intros Hok Hlow. unfold ToString.
  destruct (Accept _ _) as [status cost]. simpl in Hok. by rewrite Hok, Hlow.
Qed.

Lemma ToString_report (p : HloExecutionProfile) (computation : N)
    (device_description : DeviceDescription) (shape_size : ShapeSizeFunction) :
  ok (Accept shape_size (root_instruction computation)).1 = true →
  fge (clock_rate_ghz device_description) (dlit 1 (-9)) = true →
  let cost_analysis := (Accept shape_size (root_instruction computation)).2 in
  let clock := clock_rate_ghz device_description in
  let total_cycles := to_int64 (total_cycles_executed computation) in
  let items := report_items p computation in
  ToString p computation device_description shape_size
  = Returns (flat_report cost_analysis clock total_cycles computation items +:+
             report_trailer clock total_cycles items).
Proof.
  intros Hok Hclock. unfold ToString.
  destruct (Accept _ _) as [status cost]. simpl in *. rewrite Hok, Hclock.
  simpl. fold (report_items p computation).
  rewrite append_rows. unfold append_item, flat_report, report_trailer, row_text.
  simpl. f_equal.
  case_bool_decide; by rewrite !string_app_assoc.
Qed.

End loops.

(** ** The two insertion sorts meet the contract *)

Section insertion.
Context {A : Type} (comp : A → A → bool).

Lemma insert_front_perm (x : A) (l : list A) : insert_front comp x l ≡ₚ x :: l.
Proof.
  induction l as [|y l IH]; simpl; [done |].
  destruct (comp y x); [| done]. rewrite IH. apply Permutation_swap.
Qed.

Lemma insert_back_perm (x : A) (l : list A) : insert_back comp x l ≡ₚ x :: l.
Proof.
  induction l as [|y l IH]; simpl; [done |].
  destruct (comp x y); [done |]. rewrite IH. apply Permutation_swap.
Qed.

Lemma sort_front_perm (l : list A) : sort_front comp l ≡ₚ l.
Proof.
  induction l as [|x l IH]; simpl; [done |].
  by rewrite insert_front_perm, IH.
Qed.

Lemma sort_back_perm (l : list A) : sort_back comp l ≡ₚ l.
Proof.
  induction l as [|x l IH]; simpl; [done |].
  by rewrite insert_back_perm, IH.
Qed.

Context (Hswo : StrictWeakOrdering comp).

Lemma swo_asym (x y : A) : comp x y = true → comp y x = false.
Proof.
  intros Hxy. destruct (comp y x) eqn:Hyx; [| done].
  rewrite <- (swo_irrefl comp Hswo x). symmetry.
  by apply (swo_trans comp Hswo x y x).
Qed.

(** Not being less is transitive. *)
Lemma swo_not_less_trans (x y z : A) :
  comp z y = false → comp y x = false → comp z x = false.
Proof.
  intros Hzy Hyx. destruct (comp z x) eqn:Hzx; [| done].
  destruct (comp x y) eqn:Hxy.
  { rewrite <- Hzy. symmetry. by apply (swo_trans comp Hswo z x y). }
  destruct (comp y z) eqn:Hyz.
  { rewrite <- Hyx. symmetry. by apply (swo_trans comp Hswo y z x). }
  destruct (swo_equiv_trans comp Hswo x y z) as [_ Hzx']; congruence.
Qed.

Lemma swo_less_not_less (x y z : A) :
  comp x y = true → comp z y = false → comp z x = false.
Proof.
  intros Hxy Hzy. destruct (comp z x) eqn:Hzx; [| done].
  rewrite <- Hzy. symmetry. by apply (swo_trans comp Hswo z x y).
Qed.

Lemma insert_front_sorted (x : A) (l : list A) :
  StronglySorted (λ a b, comp b a = false) l →
  StronglySorted (λ a b, comp b a = false) (insert_front comp x l).
Proof.
  induction 1 as [|y l Hl IH Hy]; simpl.
  - repeat constructor.
  - destruct (comp y x) eqn:Hyx.
    + constructor; [done |].
      rewrite insert_front_perm. constructor; [by apply swo_asym | done].
    + constructor; [by constructor |].
      constructor; [done |].
      eapply Forall_impl; [exact Hy |].
      intros z Hzy. simpl in Hzy. by apply (swo_not_less_trans x y z).
Qed.

Lemma insert_back_sorted (x : A) (l : list A) :
  StronglySorted (λ a b, comp b a = false) l →
  StronglySorted (λ a b, comp b a = false) (insert_back comp x l).
Proof.
  induction 1 as [|y l Hl IH Hy]; simpl.
  - repeat constructor.
  - destruct (comp x y) eqn:Hxy.
    + constructor; [by constructor |].
      constructor; [by apply swo_asym |].
      eapply Forall_impl; [exact Hy |].
      intros z Hzy. simpl in Hzy. by apply (swo_less_not_less x y z).
    + constructor; [done |].
      rewrite insert_back_perm. by constructor.
Qed.

Lemma sort_front_sorted (l : list A) :
  StronglySorted (λ a b, comp b a = false) (sort_front comp l).
Proof.
  induction l as [|x l IH]; simpl; [constructor |].
  by apply insert_front_sorted.
Qed.

Lemma sort_back_sorted (l : list A) :
  StronglySorted (λ a b, comp b a = false) (sort_back comp l).
Proof.
  induction l as [|x l IH]; simpl; [constructor |].
  by apply insert_back_sorted.
Qed.

End insertion.

Definition front_std_sort : StdSort :=
  {| std_sort := @sort_front;
     std_sort_perm := @sort_front_perm;
     std_sort_sorted := λ A comp l Hswo, sort_front_sorted comp Hswo l |}.

Definition back_std_sort : StdSort :=
  {| std_sort := @sort_back;
     std_sort_perm := @sort_back_perm;
     std_sort_sorted := λ A comp l Hswo, sort_back_sorted comp Hswo l |}.

(** [ToString] on the small graph, with IEEE doubles, the map's own order
    and the first of the two sorts. *)
Definition small_ToString (p : HloExecutionProfile) (computation : N)
    (device_description : @DeviceDescription float_arith) : outcome :=
  @ToString small_graph float_arith small_analysis plain_formatters list_table
    map_order front_std_sort p computation device_description any_shape_size.

(** * The report *)

Section report_theorems.
Context {graph : HloGraph} {arith : DoubleArith} {analysis : CostAnalysisPass}
        {formatters : Formatters} {tables : MetricTable}
        {order : UnorderedIteration} {sorting : StdSort}.

(** C1: when [ToString] produces a report, the report is the header, the
    [[total]] row, and then one row for each item, where the items are the
    stored observations whose instruction has the queried computation as
    its parent, each exactly once; observations of other computations are
    not among them. *)
Theorem ToString_one_row_per_observation (p : HloExecutionProfile)
    (computation : N) (device_description : DeviceDescription)
    (shape_size : ShapeSizeFunction) :
  ok (Accept shape_size (root_instruction computation)).1 = true →
  fge (clock_rate_ghz device_description) (dlit 1 (-9)) = true →
  ToString p computation device_description shape_size
  = Returns
      (header_text computation (clock_rate_ghz device_description)
         (to_int64 (total_cycles_executed computation)) +:+
       row_text (clock_rate_ghz device_description)
         (to_int64 (total_cycles_executed computation))
         (total_row (to_int64 (total_cycles_executed computation))) +:+
       more_rows_text (clock_rate_ghz device_description)
         (to_int64 (total_cycles_executed computation))
         (item_row (Accept shape_size (root_instruction computation)).2
            <$> report_items p computation) +:+
       report_trailer (clock_rate_ghz device_description)
         (to_int64 (total_cycles_executed computation))
         (report_items p computation))
  ∧ report_items p computation ≡ₚ map_to_list (observations_of p computation)
  ∧ NoDup (report_items p computation).*1
  ∧ (∀ hlo cycles,
       (hlo, cycles) ∈ report_items p computation ↔
       hlo_to_cycles_taken_ p !! hlo = Some cycles ∧ parent hlo = computation)
  ∧ length
      (total_row (to_int64 (total_cycles_executed computation))
       :: (item_row (Accept shape_size (root_instruction computation)).2
             <$> report_items p computation))
    = S (size (observations_of p computation)).
Proof.
  intros Hok Hclock. split_and!.
  - rewrite (ToString_report p computation device_description shape_size Hok Hclock).
    unfold flat_report. by rewrite !string_app_assoc.
  - apply report_items_perm.
  - apply NoDup_report_items.
  - apply elem_of_report_items.
  - simpl. by rewrite length_fmap, length_report_items.
Qed.

(** C3: when the cost analysis fails, [ToString] returns the empty string,
    whatever the profile holds and whatever the device; nothing of a report
    is produced. *)
Theorem ToString_empty_on_failed_analysis (p : HloExecutionProfile)
    (computation : N) (device_description : DeviceDescription)
    (shape_size : ShapeSizeFunction) :
  ok (Accept shape_size (root_instruction computation)).1 = false →
  ToString p computation device_description shape_size = Returns "".
Proof.
  intros Hfail. unfold ToString.
  destruct (Accept shape_size (root_instruction computation)) as [status cost].
  simpl in Hfail. by rewrite Hfail.
Qed.

(** C4, as the code has it: the first row of every report is the [[total]]
    row, built from [total_cycles]; its flops field reads [<none>], and its
    two bandwidth fields read [<unknown>]. *)
Theorem total_row_first (p : HloExecutionProfile)
    (computation : N) (device_description : DeviceDescription)
    (shape_size : ShapeSizeFunction) :
  ok (Accept shape_size (root_instruction computation)).1 = true →
  fge (clock_rate_ghz device_description) (dlit 1 (-9)) = true →
  ToString p computation device_description shape_size
  = Returns
      (header_text computation (clock_rate_ghz device_description)
         (to_int64 (total_cycles_executed computation)) +:+
       row_text (clock_rate_ghz device_description)
         (to_int64 (total_cycles_executed computation))
         (total_row (to_int64 (total_cycles_executed computation))) +:+
       more_rows_text (clock_rate_ghz device_description)
         (to_int64 (total_cycles_executed computation))
         (item_row (Accept shape_size (root_instruction computation)).2
            <$> report_items p computation) +:+
       report_trailer (clock_rate_ghz device_description)
         (to_int64 (total_cycles_executed computation))
         (report_items p computation))
  ∧ ∀ clock total_cycles,
      row_text clock total_cycles (total_row total_cycles)
      = pad_left 15 (pretty total_cycles) +:+ " cycles (" +:+
        printf_f 6 2 (cycles_percent total_cycles total_cycles) +:+ "%) :: " +:+
        printf_f 12 1 (cycles_to_microseconds clock (of_int total_cycles)) +:+
        " usec @ f_nom :: " +:+
        pad_left 18 none +:+ " :: " +:+
        pad_left 12 unknown +:+ "/s :: " +:+
        pad_left 12 unknown +:+ "/cycle :: " +:+
        total_label.
Proof.
  intros Hok Hclock. split.
  - rewrite (ToString_report p computation device_description shape_size Hok Hclock).
    unfold flat_report. by rewrite !string_app_assoc.
  - intros clock total_cycles. unfold row_text, item_text, total_row. simpl.
    unfold bandwidth_fields, flops_field.
    rewrite (bool_decide_eq_true_2 (-1 < 0)) by lia.
    rewrite orb_true_r.
    by rewrite (bool_decide_eq_true_2 (-1 ≤ 0)) by lia.
Qed.

(** C5: in every row the bytes-per-second and bytes-per-cycle fields are
    the two [bandwidth_fields] of the row's cycles and bytes accessed. Both
    read [<unknown>] when the cycles are at most 0 or the bytes accessed are
    negative, so always for -1 bytes; otherwise they are the formatted
    [bytes_accessed / (nsecs / 1e9)] and [bytes_accessed / cycles]. With a
    formatter that never prints [<unknown>] itself, the sentinel appears
    exactly in the first case. *)
Theorem bandwidth_fields_unknown_iff (clock : double)
    (total_cycles : Z) (r : Row) :
  row_text clock total_cycles r
  = pad_left 15 (pretty (row_cycles r)) +:+ " cycles (" +:+
    printf_f 6 2 (cycles_percent total_cycles (row_cycles r)) +:+ "%) :: " +:+
    printf_f 12 1 (cycles_to_microseconds clock (of_int (row_cycles r))) +:+
    " usec @ f_nom :: " +:+
    pad_left 18 (flops_field clock (row_cycles r) (row_flops r)) +:+ " :: " +:+
    pad_left 12
      (bandwidth_fields clock (row_cycles r) (row_bytes_accessed r)).1 +:+
    "/s :: " +:+
    pad_left 12
      (bandwidth_fields clock (row_cycles r) (row_bytes_accessed r)).2 +:+
    "/cycle :: " +:+
    row_name r
  ∧ (∀ cycles bytes,
       cycles ≤ 0 ∨ bytes < 0 →
       bandwidth_fields clock cycles bytes = (unknown, unknown))
  ∧ (∀ cycles bytes,
       ¬ (cycles ≤ 0 ∨ bytes < 0) →
       bandwidth_fields clock cycles bytes
       = (HumanReadableNumBytes
            (double_to_int64
               (fdiv (of_int bytes)
                  (fdiv (fdiv (of_int cycles) clock) (dlit 1 9)))),
          HumanReadableNumBytes (bytes `quot` cycles))
       ∧ bytes `quot` cycles = bytes `div` cycles)
  ∧ (∀ cycles, bandwidth_fields clock cycles (-1) = (unknown, unknown))
  ∧ ((∀ num_bytes, HumanReadableNumBytes num_bytes ≠ unknown) →
     ∀ cycles bytes,
       ((bandwidth_fields clock cycles bytes).1 = unknown ↔
        cycles ≤ 0 ∨ bytes < 0)
       ∧ ((bandwidth_fields clock cycles bytes).2 = unknown ↔
          cycles ≤ 0 ∨ bytes < 0)).
Proof.
  assert (∀ cycles bytes, cycles ≤ 0 ∨ bytes < 0 →
            bandwidth_fields clock cycles bytes = (unknown, unknown)) as Hunknown.
  { intros cycles bytes Hcond. unfold bandwidth_fields.
    destruct Hcond as [Hc|Hb].
    - by rewrite (bool_decide_eq_true_2 _ Hc).
    - by rewrite (bool_decide_eq_true_2 _ Hb), orb_true_r. }
  assert (∀ cycles bytes, ¬ (cycles ≤ 0 ∨ bytes < 0) →
            bandwidth_fields clock cycles bytes
            = (HumanReadableNumBytes
                 (double_to_int64
                    (fdiv (of_int bytes)
                       (fdiv (fdiv (of_int cycles) clock) (dlit 1 9)))),
               HumanReadableNumBytes (bytes `quot` cycles))) as Hknown.
  { intros cycles bytes Hcond. unfold bandwidth_fields.
    rewrite (bool_decide_eq_false_2 (cycles ≤ 0)) by tauto.
    by rewrite (bool_decide_eq_false_2 (bytes < 0)) by tauto. }
  split_and!.
  - unfold row_text, item_text. by destruct (bandwidth_fields _ _ _).
  - exact Hunknown.
  - intros cycles bytes Hcond. split; [by apply Hknown |].
    apply Z.quot_div_nonneg; lia.
  - intros cycles. apply Hunknown. lia.
  - intros Hfmt cycles bytes.
    destruct (decide (cycles ≤ 0 ∨ bytes < 0)) as [Hcond|Hcond].
    + rewrite (Hunknown _ _ Hcond). simpl. tauto.
    + rewrite (Hknown _ _ Hcond). simpl.
      split; (split; [intros Heq; by apply Hfmt in Heq | tauto]).
Qed.

(** C6: when the analysis succeeded and the clock rate passed its check,
    a total of at most 0 cycles makes the report end with the zero-cycles
    marker, and the metric table has no part in it; otherwise the report
    ends with the rendering of the table that received one entry per item,
    in the order of the rows, the entry holding the instruction's full text,
    compact text and category and the microseconds of its count. *)
Theorem ToString_trailer (p : HloExecutionProfile)
    (computation : N) (device_description : DeviceDescription)
    (shape_size : ShapeSizeFunction) :
  ok (Accept shape_size (root_instruction computation)).1 = true →
  fge (clock_rate_ghz device_description) (dlit 1 (-9)) = true →
  (to_int64 (total_cycles_executed computation) ≤ 0 →
   ToString p computation device_description shape_size
   = Returns
       (flat_report (Accept shape_size (root_instruction computation)).2
          (clock_rate_ghz device_description)
          (to_int64 (total_cycles_executed computation)) computation
          (report_items p computation) +:+
        zero_cycles_marker)
   ∧ ∀ other_table : MetricTable,
       @ToString graph arith analysis formatters other_table order sorting
         p computation device_description shape_size
       = @ToString graph arith analysis formatters tables order sorting
           p computation device_description shape_size)
  ∧ (0 < to_int64 (total_cycles_executed computation) →
     ToString p computation device_description shape_size
     = Returns
         (flat_report (Accept shape_size (root_instruction computation)).2
            (clock_rate_ghz device_description)
            (to_int64 (total_cycles_executed computation)) computation
            (report_items p computation) +:+
          MakeReport
            (cycles_to_microseconds (clock_rate_ghz device_description)
               (of_int (to_int64 (total_cycles_executed computation))))
            (fold_left (λ table entry, AddEntry entry table)
               (make_entry (clock_rate_ghz device_description)
                  <$> report_items p computation)
               (SetShowCategoryTable
                  (SetEntryName "ops"
                     (SetMetricName "microseconds" new_table)))))
     ∧ make_entry (clock_rate_ghz device_description)
         <$> report_items p computation
       = (λ item : Item,
            {| text := hlo_ToString item.1;
               short_text := hlo_ToString_compact item.1;
               category_text := ToCategory item.1;
               metric :=
                 fdiv (fdiv (of_int item.2) (clock_rate_ghz device_description))
                   (dlit 1000 0) |})
         <$> report_items p computation
     ∧ report_items p computation ≡ₚ map_to_list (observations_of p computation)
     ∧ length (make_entry (clock_rate_ghz device_description)
                 <$> report_items p computation)
       = size (observations_of p computation)).
Proof.
  intros Hok Hclock. split.
  - intros Hzero. split.
    + rewrite (ToString_report p computation device_description shape_size
                 Hok Hclock).
      unfold report_trailer. by rewrite (bool_decide_eq_true_2 _ Hzero).
    + intros other_table.
      rewrite (ToString_report (tables := tables)
                 p computation device_description shape_size Hok Hclock).
      rewrite (ToString_report (tables := other_table)
                 p computation device_description shape_size Hok Hclock).
      unfold report_trailer. by rewrite !(bool_decide_eq_true_2 _ Hzero).
  - intros Hpos. split_and!.
    + rewrite (ToString_report p computation device_description shape_size
                 Hok Hclock).
      unfold report_trailer. rewrite bool_decide_eq_false_2 by lia.
      by rewrite build_table_entries.
    + done.
    + apply report_items_perm.
    + by rewrite length_fmap, length_report_items.
Qed.

End report_theorems.

(** ** The order of the rows *)

Lemma to_int64_small (z : Z) : 0 ≤ z < 2 ^ 63 → to_int64 z = z.
Proof.
  intros Hz. unfold to_int64. rewrite Z.mod_small; lia.
Qed.

Lemma StronglySorted_within {A} (R : relation A) (P : A → Prop) (l : list A) :
  StronglySorted R l → Forall P l →
  StronglySorted (λ x y, P x ∧ P y ∧ R x y) l.
Proof.
  induction 1 as [|x l Hl IH Hx]; intros HP; [constructor |].
  apply Forall_cons in HP as [HPx HPl].
  constructor; [by apply IH |].
  apply Forall_forall. intros y Hy.
  rewrite Forall_forall in Hx, HPl. auto.
Qed.

Lemma item_rows_sorted `{HloGraph} (cost_analysis : HloCostAnalysis)
    (items : list Item) :
  StronglySorted (λ earlier later : Item, later.2 ≤ earlier.2) items →
  Forall (λ item : Item, 0 ≤ item.2 < 2 ^ 63) items →
  StronglySorted (λ earlier later : Row, row_cycles later ≤ row_cycles earlier)
    (item_row cost_analysis <$> items).
Proof.
  intros Hsorted Hsmall.
  eapply StronglySorted_fmap;
    [| exact (StronglySorted_within _ _ _ Hsorted Hsmall)].
  intros x y (Hx & Hy & Hle). simpl. by rewrite !to_int64_small.
Qed.

(** C2: in every report the rows of the items follow the total row by
    non-increasing stored cycle count (and, for counts below 2^63, by
    non-increasing printed count); this holds for whatever [std::sort] does
    with equal counts, and what it does is open: two sorting algorithms that
    both meet its contract put two instructions of 5 cycles each in opposite
    orders. *)
Theorem ToString_rows_by_decreasing_cycles :
  (∀ (graph : HloGraph) (arith : DoubleArith) (analysis : CostAnalysisPass)
     (formatters : Formatters) (tables : MetricTable)
     (order : UnorderedIteration) (sorting : StdSort)
     (p : HloExecutionProfile) (computation : N)
     (device_description : DeviceDescription) (shape_size : ShapeSizeFunction),
     ok (Accept shape_size (root_instruction computation)).1 = true →
     fge (clock_rate_ghz device_description) (dlit 1 (-9)) = true →
     ToString p computation device_description shape_size
     = Returns
         (header_text computation (clock_rate_ghz device_description)
            (to_int64 (total_cycles_executed computation)) +:+
          row_text (clock_rate_ghz device_description)
            (to_int64 (total_cycles_executed computation))
            (total_row (to_int64 (total_cycles_executed computation))) +:+
          more_rows_text (clock_rate_ghz device_description)
            (to_int64 (total_cycles_executed computation))
            (item_row (Accept shape_size (root_instruction computation)).2
               <$> report_items p computation) +:+
          report_trailer (clock_rate_ghz device_description)
            (to_int64 (total_cycles_executed computation))
            (report_items p computation))
     ∧ StronglySorted (λ earlier later : Item, later.2 ≤ earlier.2)
         (report_items p computation)
     ∧ (Forall (λ item : Item, 0 ≤ item.2 < 2 ^ 63) (report_items p computation) →
        StronglySorted
          (λ earlier later : Row, row_cycles later ≤ row_cycles earlier)
          (item_row (Accept shape_size (root_instruction computation)).2
             <$> report_items p computation)))
  ∧ @report_items small_graph map_order front_std_sort tied_profile 30%N
    = [(4%N, 5); (5%N, 5)]
  ∧ @report_items small_graph map_order back_std_sort tied_profile 30%N
    = [(5%N, 5); (4%N, 5)].
Proof.
  split_and!; [| by vm_compute | by vm_compute].
  intros graph arith analysis formatters tables order sorting
    p computation device_description shape_size Hok Hclock.
  split_and!.
  - rewrite (ToString_report p computation device_description shape_size Hok Hclock).
    unfold flat_report. by rewrite !string_app_assoc.
  - apply report_items_sorted.
  - intros Hsmall. apply item_rows_sorted; [apply report_items_sorted | done].
Qed.

(** * The store *)

Section calls.
Context {graph : HloGraph} {arith : DoubleArith} {analysis : CostAnalysisPass}
        {formatters : Formatters} {tables : MetricTable}
        {order : UnorderedIteration} {sorting : StdSort}.

Lemma exec_read_only (c : call) (p p' : HloExecutionProfile) :
  read_only c = true → exec c p = Some p' → p' = p.
Proof.
  destruct c as [hlo cycles|hlo|computation dev shape]; simpl; [done | congruence |].
  intros _. destruct (ToString _ _ _ _); congruence.
Qed.

Lemma run_read_only (cs : list call) (p p' : HloExecutionProfile) :
  Forall (λ c, read_only c = true) cs → run cs p = Some p' → p' = p.
Proof.
  intros Hcs. revert p. induction Hcs as [|c cs Hc _ IH]; intros p; simpl.
  - congruence.
  - destruct (exec c p) as [p1|] eqn:Hexec; simpl; [| done].
    intros Hrun. apply IH in Hrun. apply (exec_read_only c p p1) in Hexec; congruence.
Qed.

Lemma exec_profiled_mono (c : call) (p p' : HloExecutionProfile) :
  exec c p = Some p' → profiled_computations_ p ⊆ profiled_computations_ p'.
Proof.
  destruct c as [hlo cycles|hlo|computation dev shape]; simpl.
  - intros [= <-]. apply profiled_Add_mono.
  - by intros [= <-].
  - destruct (ToString _ _ _ _); [by intros [= <-] | done].
Qed.

Lemma run_profiled_mono (cs : list call) (p p' : HloExecutionProfile) :
  run cs p = Some p' → profiled_computations_ p ⊆ profiled_computations_ p'.
Proof.
  revert p. induction cs as [|c cs IH]; intros p; simpl.
  - by intros [= <-].
  - destruct (exec c p) as [p1|] eqn:Hexec; simpl; [| done].
    intros Hrun. etrans; [by eapply exec_profiled_mono | by apply IH].
Qed.

Lemma exec_not_recorded (hlo : N) (c : call) (p p' : HloExecutionProfile) :
  records hlo c = false → exec c p = Some p' →
  hlo_to_cycles_taken_ p' !! hlo = hlo_to_cycles_taken_ p !! hlo.
Proof.
  destruct c as [hlo' cycles|hlo'|computation dev shape]; simpl.
  - intros Hne%bool_decide_eq_false [= <-]. simpl. by rewrite lookup_insert_ne.
  - by intros _ [= <-].
  - intros _. destruct (ToString _ _ _ _); [by intros [= <-] | done].
Qed.

Lemma run_not_recorded (hlo : N) (cs : list call) (p p' : HloExecutionProfile) :
  Forall (λ c, records hlo c = false) cs → run cs p = Some p' →
  hlo_to_cycles_taken_ p' !! hlo = hlo_to_cycles_taken_ p !! hlo.
Proof.
  intros Hcs. revert p. induction Hcs as [|c cs Hc _ IH]; intros p; simpl.
  - by intros [= <-].
  - destruct (exec c p) as [p1|] eqn:Hexec; simpl; [| done].
    intros Hrun. rewrite (IH _ Hrun). by eapply exec_not_recorded.
Qed.

Lemma add_twice (hlo : N) (c1 c2 : Z) (p : HloExecutionProfile) :
  AddProfileResult hlo c2 (AddProfileResult hlo c1 p) = AddProfileResult hlo c2 p.
Proof.
  unfold AddProfileResult. simpl. f_equal.
  - apply insert_insert_eq.
  - apply set_eq. intros x. rewrite !elem_of_union. tauto.
Qed.

(** C7: however often [AddProfileResult] is called for one instruction,
    [GetProfileResult] returns the count of the last call: a call replaces
    the stored count, and the profile after two calls for the same
    instruction is the profile after the second alone. *)
Theorem GetProfileResult_last_write (p : HloExecutionProfile) (hlo : N)
    (earlier : list Z) (cycles : Z) :
  GetProfileResult hlo
    (fold_left (λ p c, AddProfileResult hlo c p) (earlier ++ [cycles]) p)
  = cycles
  ∧ hlo_to_cycles_taken_
      (fold_left (λ p c, AddProfileResult hlo c p) (earlier ++ [cycles]) p)
    !! hlo = Some cycles
  ∧ ∀ previous,
      AddProfileResult hlo cycles (AddProfileResult hlo previous p)
      = AddProfileResult hlo cycles p.
Proof.
  rewrite fold_left_app. simpl. split_and!.
  - apply GetProfileResult_Add_eq.
  - simpl. apply lookup_insert_eq.
  - intros previous. apply add_twice.
Qed.

(** C8: [GetProfileResult] is total; it returns 0 for an instruction that
    no call of [AddProfileResult] named, the stored count for a recorded
    one, and so the same for a recorded 0 as for no record. *)
Theorem GetProfileResult_absent_zero (hlo : N) :
  (∀ cs p',
     Forall (λ c, records hlo c = false) cs →
     run cs empty_profile = Some p' →
     GetProfileResult hlo p' = 0)
  ∧ (∀ p cycles,
       hlo_to_cycles_taken_ p !! hlo = Some cycles →
       GetProfileResult hlo p = cycles)
  ∧ (∀ p, hlo_to_cycles_taken_ p !! hlo = None → GetProfileResult hlo p = 0)
  ∧ (∀ p, exec (CallGetProfileResult hlo) p = Some p)
  ∧ (∀ p, GetProfileResult hlo (AddProfileResult hlo 0 p)
          = GetProfileResult hlo empty_profile).
Proof.
  split_and!.
  - intros cs p' Hcs Hrun. rewrite GetProfileResult_lookup.
    by rewrite (run_not_recorded hlo cs _ _ Hcs Hrun).
  - intros p cycles Hp. by rewrite GetProfileResult_lookup, Hp.
  - intros p Hp. by rewrite GetProfileResult_lookup, Hp.
  - done.
  - intros p. by rewrite GetProfileResult_Add_eq.
Qed.

(** C9: after [AddProfileResult(hlo, cycles)] the parent computation of
    [hlo] is in the set of profiled computations, and it stays there through
    every later call for as long as the profile exists. *)
Theorem parent_stays_profiled (p : HloExecutionProfile) (hlo : N) (cycles : Z) :
  parent hlo ∈ profiled_computations_ (AddProfileResult hlo cycles p)
  ∧ ∀ cs p',
      run cs (AddProfileResult hlo cycles p) = Some p' →
      parent hlo ∈ profiled_computations_ p'.
Proof.
  assert (parent hlo ∈ profiled_computations_ (AddProfileResult hlo cycles p))
    as Hin by (simpl; set_solver).
  split; [done |].
  intros cs p' Hrun. by apply (run_profiled_mono cs _ _ Hrun).
Qed.

(** C10: [GetProfileResult] and [ToString] change nothing: after any
    number of such calls the profile, hence every stored count and the set
    of profiled computations, is what it was; and [AddProfileResult(a, c)]
    leaves the count of every other instruction [b] as it was. *)
Theorem read_only_calls_frame (p : HloExecutionProfile) :
  (∀ cs p',
     Forall (λ c, read_only c = true) cs → run cs p = Some p' →
     p' = p
     ∧ (∀ b, GetProfileResult b p' = GetProfileResult b p)
     ∧ profiled_computations_ p' = profiled_computations_ p)
  ∧ (∀ a b c, a ≠ b →
       GetProfileResult b (AddProfileResult a c p) = GetProfileResult b p).
Proof.
  split.
  - intros cs p' Hcs Hrun. by rewrite (run_read_only cs p p' Hcs Hrun).
  - intros a b c Hne. by apply GetProfileResult_Add_ne.
Qed.

End calls.

(** ** The example of the specification *)

(** Store {A: 100, B: 300}, both of computation 10 whose total is 500 cycles,
    at 1 GHz: the total row shows 500 cycles, 100% and 0.5 usec; the row of B
    (300 cycles, 60%) comes before the row of A (100 cycles, 20%); the
    7 cycles of computation 20 have no row. *)
Example small_report :
  small_ToString small_profile 10%N one_ghz
  = Returns
      ("HLO execution profile for computation.10: (0.000000500 s @ f_nom)" +:+
       newline_tab +:+
       "            500 cycles (100.00%) ::          0.5 usec @ f_nom ::             <none> ::    <unknown>/s ::    <unknown>/cycle :: [total]" +:+
       newline_tab +:+
       "            300 cycles ( 60.00%) ::          0.3 usec @ f_nom ::             <none> ::   320000000B/s ::           0B/cycle :: %i2 = f32[8]{0} add(...)" +:+
       newline_tab +:+
       "            100 cycles ( 20.00%) ::          0.1 usec @ f_nom ::  80000000.00FLOP/s ::   960000000B/s ::           0B/cycle :: %i1 = f32[8]{0} add(...)" +:+
       "       0.300 microseconds %i2 = add (non-fusion elementwise)" +:+ newline +:+
       "       0.100 microseconds %i1 = add (non-fusion elementwise)" +:+ newline).
Proof. by vm_compute. Qed.

Example empty_report :
  small_ToString small_profile 30%N one_ghz
  = Returns
      ("HLO execution profile for computation.30: (0.000000000 s @ f_nom)" +:+
       newline_tab +:+
       "              0 cycles (  0.00%) ::          0.0 usec @ f_nom ::             <none> ::    <unknown>/s ::    <unknown>/cycle :: [total]" +:+
       "****** 0 total cycles ******" +:+ newline).
Proof. by vm_compute. Qed.

Example stopped_clock_aborts :
  small_ToString small_profile 10%N stopped_clock = CheckFailed.
Proof. by vm_compute. Qed.

(** A count of 2^63 cycles sorts first and is printed as a negative number
    with unknown bandwidth. *)
Example huge_count_wraps :
  to_int64 (2 ^ 63) = - 2 ^ 63
  ∧ @report_items small_graph map_order front_std_sort
      (@AddProfileResult small_graph 1%N (2 ^ 63)
         (@AddProfileResult small_graph 2%N 300 empty_profile)) 10%N
    = [(1%N, 2 ^ 63); (2%N, 300)].
Proof. by vm_compute. Qed.

(** ** The plain byte formatter never prints the sentinel *)

Lemma last_char_app (s : string) (a : ascii) :
  last_char (s +:+ String a EmptyString) = Some a.
Proof.
  induction s as [|b s IH]; [done |].
  change (last_char (String b (s +:+ String a EmptyString)) = Some a).
  destruct s as [|c s]; [done |]. exact IH.
Qed.

Lemma plain_bytes_not_unknown (num_bytes : Z) :
  @HumanReadableNumBytes float_arith plain_formatters num_bytes ≠ unknown.
Proof.
  intros Heq. apply (f_equal last_char) in Heq.
  simpl in Heq. rewrite last_char_app in Heq. discriminate.
Qed.

(** ** The theorems at the small graph *)

Section at_small_graph.
#[local] Existing Instances small_graph float_arith small_analysis
  plain_formatters list_table map_order front_std_sort.

Lemma small_analysis_ok :
  ok (Accept any_shape_size (root_instruction 10%N)).1 = true.
Proof. reflexivity. Defined.

Lemma one_ghz_passes_check :
  fge (clock_rate_ghz one_ghz) (dlit 1 (-9)) = true.
Proof. vm_compute. reflexivity. Defined.

Lemma ToString_one_row_per_observation_witness :
  ok (Accept any_shape_size (root_instruction 10%N)).1 = true
  ∧ fge (clock_rate_ghz one_ghz) (dlit 1 (-9)) = true
  ∧ report_items small_profile 10%N
    ≡ₚ map_to_list (observations_of small_profile 10%N)
  ∧ length (total_row 500 :: (item_row (Accept any_shape_size 11%N).2
                                <$> report_items small_profile 10%N))
    = S (size (observations_of small_profile 10%N)).
Proof.
  destruct (ToString_one_row_per_observation small_profile 10%N one_ghz any_shape_size
              small_analysis_ok one_ghz_passes_check)
    as (_ & Hperm & _ & _ & Hlen).
  split_and!; [reflexivity | vm_compute; reflexivity | exact Hperm | exact Hlen].
Defined.

Lemma ToString_rows_by_decreasing_cycles_witness :
  ok (Accept any_shape_size (root_instruction 10%N)).1 = true
  ∧ fge (clock_rate_ghz one_ghz) (dlit 1 (-9)) = true
  ∧ StronglySorted (λ earlier later : Item, later.2 ≤ earlier.2)
      (report_items small_profile 10%N).
Proof.
  destruct (proj1 ToString_rows_by_decreasing_cycles
              small_graph float_arith small_analysis plain_formatters
              list_table map_order front_std_sort
              small_profile 10%N one_ghz any_shape_size
              small_analysis_ok one_ghz_passes_check)
    as (_ & Hsorted & _).
  split_and!; [reflexivity | vm_compute; reflexivity | exact Hsorted].
Defined.

Lemma ToString_empty_on_failed_analysis_witness :
  ok (Accept any_shape_size (root_instruction 20%N)).1 = false
  ∧ ToString small_profile 20%N one_ghz any_shape_size = Returns ""
  ∧ ToString small_profile 20%N stopped_clock any_shape_size = Returns "".
Proof.
  split_and!.
  - reflexivity.
  - apply ToString_empty_on_failed_analysis. reflexivity.
  - apply ToString_empty_on_failed_analysis. reflexivity.
Defined.

(** C4 as the claim words it fails: on the total row of the example the
    flops field reads [<none>], not [<unknown>]. *)
Lemma total_row_flops_not_unknown :
  flops_field (clock_rate_ghz one_ghz) 500 (row_flops (total_row 500)) = none
  ∧ none ≠ unknown
  ∧ ¬ total_row_reads_unknown (clock_rate_ghz one_ghz) 500.
Proof.
  split_and!; [reflexivity | discriminate |].
  intros [Hflops _]. vm_compute in Hflops. discriminate.
Qed.

Lemma total_row_first_witness :
  ok (Accept any_shape_size (root_instruction 10%N)).1 = true
  ∧ fge (clock_rate_ghz one_ghz) (dlit 1 (-9)) = true
  ∧ row_text (clock_rate_ghz one_ghz) 500 (total_row 500)
    = pad_left 15 (pretty 500) +:+ " cycles (" +:+
      printf_f 6 2 (cycles_percent 500 500) +:+ "%) :: " +:+
      printf_f 12 1
        (cycles_to_microseconds (clock_rate_ghz one_ghz) (of_int 500)) +:+
      " usec @ f_nom :: " +:+
      pad_left 18 none +:+ " :: " +:+
      pad_left 12 unknown +:+ "/s :: " +:+
      pad_left 12 unknown +:+ "/cycle :: " +:+
      total_label.
Proof.
  destruct (total_row_first small_profile 10%N one_ghz any_shape_size
              small_analysis_ok one_ghz_passes_check) as [_ Hrow].
  split_and!; [reflexivity | vm_compute; reflexivity |].
  exact (Hrow (clock_rate_ghz one_ghz) 500).
Defined.

Lemma bandwidth_fields_unknown_iff_witness :
  (∀ num_bytes, HumanReadableNumBytes num_bytes ≠ unknown)
  ∧ (0 ≤ 0 ∨ 96 < 0)
  ∧ bandwidth_fields (clock_rate_ghz one_ghz) 0 96 = (unknown, unknown)
  ∧ ¬ (300 ≤ 0 ∨ 96 < 0)
  ∧ bandwidth_fields (clock_rate_ghz one_ghz) 300 96
    = (HumanReadableNumBytes 320000000, HumanReadableNumBytes 0)
  ∧ ((bandwidth_fields (clock_rate_ghz one_ghz) 300 96).1 = unknown ↔
     300 ≤ 0 ∨ 96 < 0).
Proof.
  destruct (bandwidth_fields_unknown_iff (clock_rate_ghz one_ghz) 500
              (total_row 500))
    as (_ & Hunknown & Hknown & _ & Hiff).
  assert (¬ (300 ≤ 0 ∨ 96 < 0)) as Hcond by lia.
  split_and!.
  - exact plain_bytes_not_unknown.
  - lia.
  - apply Hunknown. lia.
  - exact Hcond.
  - rewrite (proj1 (Hknown 300 96 Hcond)). vm_compute. reflexivity.
  - exact (proj1 (Hiff plain_bytes_not_unknown 300 96)).
Defined.

Lemma ToString_trailer_witness :
  ok (Accept any_shape_size (root_instruction 30%N)).1 = true
  ∧ fge (clock_rate_ghz one_ghz) (dlit 1 (-9)) = true
  ∧ to_int64 (total_cycles_executed 30%N) ≤ 0
  ∧ ToString small_profile 30%N one_ghz any_shape_size
    = Returns
        (flat_report (Accept any_shape_size (root_instruction 30%N)).2
           (clock_rate_ghz one_ghz) (to_int64 (total_cycles_executed 30%N))
           30%N (report_items small_profile 30%N) +:+
         zero_cycles_marker)
  ∧ 0 < to_int64 (total_cycles_executed 10%N)
  ∧ length (make_entry (clock_rate_ghz one_ghz)
              <$> report_items small_profile 10%N)
    = size (observations_of small_profile 10%N).
Proof.
  assert (ok (Accept any_shape_size (root_instruction 30%N)).1 = true) as Hok
    by reflexivity.
  assert (to_int64 (total_cycles_executed 30%N) ≤ 0) as Hzero
    by (vm_compute; discriminate).
  assert (0 < to_int64 (total_cycles_executed 10%N)) as Hpos
    by (vm_compute; reflexivity).
  destruct (ToString_trailer small_profile 30%N one_ghz any_shape_size
              Hok one_ghz_passes_check) as [Hmarker _].
  destruct (ToString_trailer small_profile 10%N one_ghz any_shape_size
              small_analysis_ok one_ghz_passes_check) as [_ Htable].
  split_and!.
  - exact Hok.
  - exact one_ghz_passes_check.
  - exact Hzero.
  - exact (proj1 (Hmarker Hzero)).
  - exact Hpos.
  - exact (proj2 (proj2 (proj2 (Htable Hpos)))).
Defined.

Lemma GetProfileResult_absent_zero_witness :
  Forall (λ c, records 2%N c = false)
    [CallAddProfileResult 1%N 100; CallGetProfileResult 2%N;
     CallToString 10%N one_ghz any_shape_size]
  ∧ run [CallAddProfileResult 1%N 100; CallGetProfileResult 2%N;
         CallToString 10%N one_ghz any_shape_size] empty_profile
    = Some (AddProfileResult 1%N 100 empty_profile)
  ∧ GetProfileResult 2%N (AddProfileResult 1%N 100 empty_profile) = 0
  ∧ GetProfileResult 1%N (AddProfileResult 1%N 100 empty_profile) = 100.
Proof.
  assert (Forall (λ c, records 2%N c = false)
            [CallAddProfileResult 1%N 100; CallGetProfileResult 2%N;
             CallToString 10%N one_ghz any_shape_size]) as Hcs
    by (repeat constructor).
  assert (run [CallAddProfileResult 1%N 100; CallGetProfileResult 2%N;
               CallToString 10%N one_ghz any_shape_size] empty_profile
          = Some (AddProfileResult 1%N 100 empty_profile)) as Hrun
    by (vm_compute; reflexivity).
  destruct (GetProfileResult_absent_zero 2%N) as (Habsent & _).
  destruct (GetProfileResult_absent_zero 1%N) as (_ & Hstored & _).
  split_and!.
  - exact Hcs.
  - exact Hrun.
  - exact (Habsent _ _ Hcs Hrun).
  - apply Hstored. reflexivity.
Defined.

Lemma parent_stays_profiled_witness :
  run [CallGetProfileResult 1%N; CallAddProfileResult 3%N 7;
       CallToString 10%N one_ghz any_shape_size]
    (AddProfileResult 1%N 100 empty_profile)
  = Some (AddProfileResult 3%N 7 (AddProfileResult 1%N 100 empty_profile))
  ∧ parent 1%N
    ∈ profiled_computations_
        (AddProfileResult 3%N 7 (AddProfileResult 1%N 100 empty_profile)).
Proof.
  assert (run [CallGetProfileResult 1%N; CallAddProfileResult 3%N 7;
               CallToString 10%N one_ghz any_shape_size]
            (AddProfileResult 1%N 100 empty_profile)
          = Some (AddProfileResult 3%N 7
                    (AddProfileResult 1%N 100 empty_profile))) as Hrun
    by (vm_compute; reflexivity).
  split; [exact Hrun |].
  exact (proj2 (parent_stays_profiled empty_profile 1%N 100) _ _ Hrun).
Defined.

Lemma read_only_calls_frame_witness :
  Forall (λ c, read_only c = true)
    [CallGetProfileResult 1%N; CallToString 10%N one_ghz any_shape_size;
     CallGetProfileResult 5%N]
  ∧ run [CallGetProfileResult 1%N; CallToString 10%N one_ghz any_shape_size;
         CallGetProfileResult 5%N] small_profile
    = Some small_profile
  ∧ 1%N ≠ 2%N
  ∧ GetProfileResult 2%N (AddProfileResult 1%N 9 small_profile)
    = GetProfileResult 2%N small_profile.
Proof.
  destruct (read_only_calls_frame small_profile) as [_ Hframe].
  split_and!.
  - repeat constructor.
  - vm_compute. reflexivity.
  - discriminate.
  - apply Hframe. discriminate.
Defined.

End at_small_graph.

(** * Further properties *)

(** ** What a call of [ToString] comes to *)

Section outcomes.
Context {graph : HloGraph} {arith : DoubleArith} {analysis : CostAnalysisPass}
        {formatters : Formatters} {tables : MetricTable}
        {order : UnorderedIteration} {sorting : StdSort}.

Lemma ToString_check_failed_iff (p : HloExecutionProfile) (computation : N)
    (device_description : DeviceDescription) (shape_size : ShapeSizeFunction) :
  ToString p computation device_description shape_size = CheckFailed ↔
  ok (Accept shape_size (root_instruction computation)).1 = true
  ∧ fge (clock_rate_ghz device_description) (dlit 1 (-9)) = false.
Proof.
  unfold ToString.
  destruct (Accept shape_size (root_instruction computation)) as [st cost].
  simpl. destruct (ok st); simpl.
  - destruct (fge (clock_rate_ghz device_description) (dlit 1 (-9))); simpl.
    + split; [done | by intros [_ ?]].
    + done.
  - split; [done | by intros [? _]].
Qed.

(** X1: [ToString] returns the empty string exactly when the cost analysis
    failed, and it dies on the [CHECK_GE] exactly when the analysis succeeded
    and the clock rate is below [1e-9]; in the remaining case it returns a
    text that starts with the header, so an empty result always means a
    failed analysis. *)
Theorem ToString_outcome (p : HloExecutionProfile) (computation : N)
    (device_description : DeviceDescription) (shape_size : ShapeSizeFunction) :
  (ToString p computation device_description shape_size = Returns "" ↔
   ok (Accept shape_size (root_instruction computation)).1 = false)
  ∧ (ToString p computation device_description shape_size = CheckFailed ↔
     ok (Accept shape_size (root_instruction computation)).1 = true
     ∧ fge (clock_rate_ghz device_description) (dlit 1 (-9)) = false)
  ∧ (ok (Accept shape_size (root_instruction computation)).1 = true →
     fge (clock_rate_ghz device_description) (dlit 1 (-9)) = true →
     ∃ rest,
       ToString p computation device_description shape_size
       = Returns ("HLO execution profile for " +:+ name computation +:+ rest)).
Proof.
  destruct (ok (Accept shape_size (root_instruction computation)).1) eqn:Hok.
  - destruct (fge (clock_rate_ghz device_description) (dlit 1 (-9))) eqn:Hclock.
    + rewrite (ToString_report p computation device_description shape_size
                 Hok Hclock).
      unfold flat_report, header_text. rewrite !string_app_assoc.
      split_and!.
      * split; [intros [=] | done].
      * split; [done | by intros [_ ?]].
      * intros _ _. by eexists.
    + rewrite (ToString_failed_check p computation device_description
                 shape_size Hok Hclock).
      split_and!; [split; done | done | done].
  - assert (ToString p computation device_description shape_size = Returns "")
      as ->.
    { unfold ToString.
      destruct (Accept shape_size (root_instruction computation)) as [st cost].
      simpl in Hok. by rewrite Hok. }
    split_and!; [done | split; [done | by intros [? _]] | done].
Qed.

Lemma exec_check_fails (c : call) (p : HloExecutionProfile) :
  exec c p = None ↔ check_fails c = true.
Proof.
  destruct c as [hlo cycles|hlo|computation dev shape]; simpl; [done..|].
  rewrite andb_true_iff, negb_true_iff,
    <- (ToString_check_failed_iff p computation dev shape).
  destruct (ToString p computation dev shape); split; congruence.
Qed.

Lemma exec_survives (c : call) (p p' : HloExecutionProfile) :
  exec c p = Some p' → p' = apply_adds [c] p.
Proof.
  destruct c as [hlo cycles|hlo|computation dev shape]; simpl.
  - congruence.
  - congruence.
  - destruct (ToString p computation dev shape); congruence.
Qed.

(** X2: whether a sequence of calls dies depends on its [ToString] calls
    alone, not on the profile: it dies exactly when one of them passes the
    analysis and fails the clock-rate check. A sequence that survives leaves
    the profile that its [AddProfileResult] calls alone would leave. *)
Theorem run_outcome (cs : list call) (p : HloExecutionProfile) :
  run cs p
  = if existsb check_fails cs then None else Some (apply_adds cs p).
Proof.
  revert p. induction cs as [|c cs IH]; intros p; [done |].
  simpl. destruct (exec c p) as [p1|] eqn:Hexec; simpl.
  - destruct (check_fails c) eqn:Hc.
    { apply (exec_check_fails c p) in Hc. congruence. }
    simpl. rewrite IH. apply exec_survives in Hexec. by subst p1.
  - apply exec_check_fails in Hexec. by rewrite Hexec.
Qed.

(** X3: after any sequence of calls that the process survives, whatever
    calls come in between, the stored count of an instruction is that of the
    last [AddProfileResult] for it, or what it was before when there was
    none; an instruction that was recorded stays recorded. *)
Theorem GetProfileResult_after_calls (hlo : N) (cs : list call)
    (p p' : HloExecutionProfile) :
  run cs p = Some p' →
  hlo_to_cycles_taken_ p' !! hlo
  = match last_recorded hlo cs with
    | Some cycles => Some cycles
    | None => hlo_to_cycles_taken_ p !! hlo
    end
  ∧ GetProfileResult hlo p'
    = default (GetProfileResult hlo p) (last_recorded hlo cs)
  ∧ (is_Some (hlo_to_cycles_taken_ p !! hlo) →
     is_Some (hlo_to_cycles_taken_ p' !! hlo)).
Proof.
  intros Hrun.
  assert (hlo_to_cycles_taken_ p' !! hlo
          = match last_recorded hlo cs with
            | Some cycles => Some cycles
            | None => hlo_to_cycles_taken_ p !! hlo
            end) as Hlookup.
  { revert p Hrun. induction cs as [|c cs IH]; intros p; simpl.
    - by intros [= <-].
    - destruct (exec c p) as [p1|] eqn:Hexec; simpl; [| done].
      intros Hrun. rewrite (IH _ Hrun).
      destruct (last_recorded hlo cs); [done |].
      destruct c as [hlo' cycles|hlo'|computation dev shape]; simpl in Hexec.
      + injection Hexec as <-. simpl.
        destruct (decide (hlo' = hlo)) as [->|Hne].
        * apply lookup_insert_eq.
        * by apply lookup_insert_ne.
      + by injection Hexec as <-.
      + destruct (ToString p computation dev shape); [| done].
        by injection Hexec as <-. }
  split_and!.
  - exact Hlookup.
  - rewrite !GetProfileResult_lookup, Hlookup.
    by destruct (last_recorded hlo cs).
  - rewrite Hlookup. by destruct (last_recorded hlo cs).
Qed.

End outcomes.

(** ** Recording and reporting *)

Section recording.
Context {graph : HloGraph} {arith : DoubleArith} {analysis : CostAnalysisPass}
        {formatters : Formatters} {tables : MetricTable}
        {order : UnorderedIteration} {sorting : StdSort}.

Lemma report_items_nonempty (p : HloExecutionProfile) (computation : N) :
  report_items p computation ≠ [] ↔
  ∃ hlo, is_Some (hlo_to_cycles_taken_ p !! hlo) ∧ parent hlo = computation.
Proof.
  split.
  - destruct (report_items p computation) as [|[hlo cycles] items] eqn:Hitems;
      [done |].
    intros _. exists hlo.
    assert ((hlo, cycles) ∈ report_items p computation) as Hin
      by (rewrite Hitems; left).
    apply elem_of_report_items in Hin as [Hlookup Hparent]. eauto.
  - intros (hlo & [cycles Hlookup] & Hparent) Hnil.
    assert ((hlo, cycles) ∈ report_items p computation) as Hin
      by (by apply elem_of_report_items).
    rewrite Hnil in Hin. by apply not_elem_of_nil in Hin.
Qed.

Lemma exec_keeps_parents (c : call) (p p' : HloExecutionProfile) :
  (∀ computation,
     computation ∈ profiled_computations_ p ↔
     ∃ hlo, is_Some (hlo_to_cycles_taken_ p !! hlo) ∧ parent hlo = computation) →
  exec c p = Some p' →
  ∀ computation,
    computation ∈ profiled_computations_ p' ↔
    ∃ hlo, is_Some (hlo_to_cycles_taken_ p' !! hlo) ∧ parent hlo = computation.
Proof.
  intros Hinv Hexec.
  destruct c as [hlo cycles|hlo|comp dev shape]; simpl in Hexec.
  - injection Hexec as <-. intros computation. simpl.
    rewrite elem_of_union, elem_of_singleton, Hinv. split.
    + intros [->|(hlo' & Hsome & Hparent)].
      * exists hlo. by rewrite lookup_insert_eq.
      * exists hlo'. split; [| done].
        apply lookup_insert_is_Some. destruct (decide (hlo = hlo')); auto.
    + intros (hlo' & Hsome & Hparent).
      apply lookup_insert_is_Some in Hsome as [->|[Hne Hsome]]; [by left |].
      right. eauto.
  - by injection Hexec as <-.
  - destruct (ToString p comp dev shape); [| done]. by injection Hexec as <-.
Qed.

(** X4: in a profile built from a fresh one by any sequence of calls, the
    set of profiled computations is exactly the set of parents of the
    recorded instructions; so a computation is in the set exactly when its
    report has a row besides the total row. *)
Theorem profiled_iff_recorded (cs : list call) (p : HloExecutionProfile) :
  run cs empty_profile = Some p →
  ∀ computation,
    (computation ∈ profiled_computations_ p ↔
     ∃ hlo, is_Some (hlo_to_cycles_taken_ p !! hlo) ∧ parent hlo = computation)
    ∧ (computation ∈ profiled_computations_ p ↔
       report_items p computation ≠ []).
Proof.
  intros Hrun.
  assert (∀ computation,
            computation ∈ profiled_computations_ p ↔
            ∃ hlo, is_Some (hlo_to_cycles_taken_ p !! hlo)
                   ∧ parent hlo = computation) as Hinv.
  { assert (∀ computation,
              computation ∈ profiled_computations_ empty_profile ↔
              ∃ hlo, is_Some (hlo_to_cycles_taken_ empty_profile !! hlo)
                     ∧ parent hlo = computation) as Hempty.
    { intros computation. simpl. split.
      - intros Hin. by apply not_elem_of_empty in Hin.
      - intros (hlo & [cycles Hlookup] & _). by rewrite lookup_empty in Hlookup. }
    revert Hrun Hempty. generalize empty_profile as p0.
    induction cs as [|c cs IH]; intros p0; simpl.
    - by intros [= <-].
    - destruct (exec c p0) as [p1|] eqn:Hexec; simpl; [| done].
      intros Hrun Hinv0. apply (IH p1 Hrun).
      by apply (exec_keeps_parents c p0 p1). }
  intros computation. split; [apply Hinv |].
  by rewrite report_items_nonempty.
Qed.

(** X5: recording two different instructions in either order leaves the
    same profile. *)
Theorem AddProfileResult_commute (a b : N) (c1 c2 : Z)
    (p : HloExecutionProfile) :
  a ≠ b →
  AddProfileResult a c1 (AddProfileResult b c2 p)
  = AddProfileResult b c2 (AddProfileResult a c1 p).
Proof.
  intros Hne. unfold AddProfileResult. simpl. f_equal.
  - by apply insert_insert_ne.
  - apply set_eq. intros x. rewrite !elem_of_union. tauto.
Qed.

(** X6: recording an instruction of another computation leaves the
    observations of this computation as they were, and with them the items of
    its report up to their order and the number of its rows. *)
Theorem report_unchanged_by_other_computation (p : HloExecutionProfile)
    (hlo : N) (cycles : Z) (computation : N) :
  parent hlo ≠ computation →
  observations_of (AddProfileResult hlo cycles p) computation
  = observations_of p computation
  ∧ report_items (AddProfileResult hlo cycles p) computation
    ≡ₚ report_items p computation
  ∧ length (report_items (AddProfileResult hlo cycles p) computation)
    = length (report_items p computation).
Proof.
  intros Hother.
  assert (observations_of (AddProfileResult hlo cycles p) computation
          = observations_of p computation) as Hobs.
  { unfold observations_of. simpl. by apply map_filter_insert_not. }
  split_and!.
  - exact Hobs.
  - by rewrite !report_items_perm, Hobs.
  - by rewrite !length_report_items, Hobs.
Qed.

(** X7: after [AddProfileResult(hlo, cycles)] the report of the parent of
    [hlo] has exactly one item for [hlo], with the new count; the items of
    the other instructions are those of before, and the report has one row
    more only if [hlo] was not recorded before. *)
Theorem report_after_AddProfileResult (p : HloExecutionProfile)
    (hlo : N) (cycles : Z) :
  observations_of (AddProfileResult hlo cycles p) (parent hlo)
  = <[hlo := cycles]> (observations_of p (parent hlo))
  ∧ (∀ cycles',
       (hlo, cycles') ∈ report_items (AddProfileResult hlo cycles p) (parent hlo)
       ↔ cycles' = cycles)
  ∧ (∀ hlo' cycles' computation,
       hlo' ≠ hlo →
       (hlo', cycles') ∈ report_items (AddProfileResult hlo cycles p) computation
       ↔ (hlo', cycles') ∈ report_items p computation)
  ∧ length (report_items (AddProfileResult hlo cycles p) (parent hlo))
    = if decide (is_Some (hlo_to_cycles_taken_ p !! hlo))
      then length (report_items p (parent hlo))
      else S (length (report_items p (parent hlo))).
Proof.
  assert (observations_of (AddProfileResult hlo cycles p) (parent hlo)
          = <[hlo := cycles]> (observations_of p (parent hlo))) as Hobs.
  { unfold observations_of. simpl. by apply map_filter_insert_True. }
  assert (observations_of p (parent hlo) !! hlo
          = hlo_to_cycles_taken_ p !! hlo) as Hlookup.
  { unfold observations_of. apply option_eq. intros c.
    rewrite map_lookup_filter_Some. simpl. tauto. }
  split_and!.
  - exact Hobs.
  - intros cycles'. rewrite elem_of_report_items. simpl.
    rewrite lookup_insert_eq. split; [intros [[= ->] _] | intros ->]; done.
  - intros hlo' cycles' computation Hne. rewrite !elem_of_report_items. simpl.
    by rewrite lookup_insert_ne.
  - rewrite !length_report_items, Hobs.
    destruct (decide (is_Some (hlo_to_cycles_taken_ p !! hlo))) as [Hsome|Hnone].
    + apply map_size_insert_Some. by rewrite Hlookup.
    + apply map_size_insert_None. rewrite Hlookup.
      by apply eq_None_not_Some.
Qed.

(** X8: when no recorded instruction belongs to the computation (so for a
    fresh profile), the report is the header, the total row and the trailer;
    with a positive total the trailer is the rendering of the table to which
    no entry was added. *)
Theorem ToString_without_observations (p : HloExecutionProfile)
    (computation : N) (device_description : DeviceDescription)
    (shape_size : ShapeSizeFunction) :
  ok (Accept shape_size (root_instruction computation)).1 = true →
  fge (clock_rate_ghz device_description) (dlit 1 (-9)) = true →
  (∀ hlo, is_Some (hlo_to_cycles_taken_ p !! hlo) → parent hlo ≠ computation) →
  report_items p computation = []
  ∧ ToString p computation device_description shape_size
    = Returns
        (header_text computation (clock_rate_ghz device_description)
           (to_int64 (total_cycles_executed computation)) +:+
         row_text (clock_rate_ghz device_description)
           (to_int64 (total_cycles_executed computation))
           (total_row (to_int64 (total_cycles_executed computation))) +:+
         (if bool_decide (to_int64 (total_cycles_executed computation) ≤ 0)
          then zero_cycles_marker
          else MakeReport
                 (cycles_to_microseconds (clock_rate_ghz device_description)
                    (of_int (to_int64 (total_cycles_executed computation))))
                 (SetShowCategoryTable
                    (SetEntryName "ops"
                       (SetMetricName "microseconds" new_table))))).
Proof.
  intros Hok Hclock Hnone.
  assert (report_items p computation = []) as Hitems.
  { destruct (decide (report_items p computation = [])) as [|Hne]; [done |].
    apply report_items_nonempty in Hne as (hlo & Hsome & Hparent).
    by destruct (Hnone hlo Hsome). }
  split; [exact Hitems |].
  rewrite (ToString_report p computation device_description shape_size
             Hok Hclock).
  unfold flat_report, report_trailer. rewrite Hitems. simpl.
  by rewrite !string_app_assoc.
Qed.

(** X9: a stored count of 2^63 or more reaches [append_item] as the
    negative number [count - 2^64], so its row shows both bandwidth fields
    as [<unknown>] whatever the bytes accessed, while the table entry of the
    same item is computed from the count itself; a count below 2^63 reaches
    [append_item] unchanged. *)
Theorem huge_count_row (cost_analysis : HloCostAnalysis) (clock : double)
    (item : Item) :
  (2 ^ 63 ≤ item.2 < 2 ^ 64 →
   row_cycles (item_row cost_analysis item) = item.2 - 2 ^ 64
   ∧ row_cycles (item_row cost_analysis item) < 0
   ∧ bandwidth_fields clock (row_cycles (item_row cost_analysis item))
       (row_bytes_accessed (item_row cost_analysis item))
     = (unknown, unknown)
   ∧ metric (make_entry clock item)
     = cycles_to_microseconds clock (of_int item.2))
  ∧ (0 ≤ item.2 < 2 ^ 63 → row_cycles (item_row cost_analysis item) = item.2).
Proof.
  split.
  - intros Hhuge.
    assert (row_cycles (item_row cost_analysis item) = item.2 - 2 ^ 64) as Hrow.
    { simpl. unfold to_int64.
      replace (item.2 + 2 ^ 63) with (item.2 - 2 ^ 63 + 1 * 2 ^ 64) by lia.
      rewrite Z.mod_add by lia. rewrite Z.mod_small; lia. }
    split_and!; [exact Hrow | lia | | done].
    unfold bandwidth_fields. rewrite bool_decide_eq_true_2; [done | lia].
  - intros Hsmall. simpl. by apply to_int64_small.
Qed.

(** X10: the bytes-per-cycle field formats the integer quotient: with
    positive cycles and no negative bytes it shows the largest [q] with
    [q * cycles ≤ bytes], so 0 when fewer bytes than cycles were accessed. *)
Theorem bytes_per_cycle_is_floor (clock : double) (cycles bytes : Z) :
  0 < cycles → 0 ≤ bytes →
  ∃ q,
    (bandwidth_fields clock cycles bytes).2 = HumanReadableNumBytes q
    ∧ q * cycles ≤ bytes < (q + 1) * cycles
    ∧ (bytes < cycles → q = 0).
Proof.
  intros Hcycles Hbytes. exists (bytes `quot` cycles).
  unfold bandwidth_fields.
  rewrite (bool_decide_eq_false_2 (cycles ≤ 0)) by lia.
  rewrite (bool_decide_eq_false_2 (bytes < 0)) by lia. simpl.
  rewrite Z.quot_div_nonneg by lia.
  pose proof (Z.mul_div_le bytes cycles Hcycles).
  pose proof (Z.mul_succ_div_gt bytes cycles Hcycles).
  split; [done |]. split; [lia |].
  intros Hless. apply Z.div_small. lia.
Qed.

(** X11: the comparator of the sort is a strict weak ordering, as
    [std::sort] requires, and two items are equivalent for it exactly when
    their counts are equal. *)
Theorem custom_less_orders_by_count :
  StrictWeakOrdering custom_less
  ∧ (∀ lhs rhs : Item,
       custom_less lhs rhs = true ↔ rhs.2 < lhs.2)
  ∧ (∀ lhs rhs : Item,
       custom_less lhs rhs = false ∧ custom_less rhs lhs = false ↔
       lhs.2 = rhs.2).
Proof.
  split_and!.
  - apply custom_less_strict_weak.
  - intros lhs rhs. rewrite custom_less_gt. lia.
  - intros lhs rhs. rewrite !custom_less_le. lia.
Qed.

End recording.

(** ** Reports without ties *)

(** X12: when the recorded instructions of the computation all have
    different counts, the report does not depend on the order in which the
    hash map is visited nor on what [std::sort] does with equal elements:
    the items and the returned text are the same for any two such choices. *)
Theorem report_determined_without_ties
    (graph : HloGraph) (arith : DoubleArith) (analysis : CostAnalysisPass)
    (formatters : Formatters) (tables : MetricTable)
    (order1 order2 : UnorderedIteration) (sorting1 sorting2 : StdSort)
    (p : HloExecutionProfile) (computation : N)
    (device_description : DeviceDescription) (shape_size : ShapeSizeFunction) :
  (∀ hlo1 hlo2 cycles,
     hlo_to_cycles_taken_ p !! hlo1 = Some cycles →
     hlo_to_cycles_taken_ p !! hlo2 = Some cycles →
     parent hlo1 = computation → parent hlo2 = computation →
     hlo1 = hlo2) →
  @report_items graph order1 sorting1 p computation
  = @report_items graph order2 sorting2 p computation
  ∧ @ToString graph arith analysis formatters tables order1 sorting1
      p computation device_description shape_size
    = @ToString graph arith analysis formatters tables order2 sorting2
        p computation device_description shape_size.
Proof.
  intros Hdistinct.
  assert (@report_items graph order1 sorting1 p computation
          = @report_items graph order2 sorting2 p computation) as Hitems.
  { apply (StronglySorted_unique_strong
             (λ earlier later : Item, later.2 ≤ earlier.2)).
    - intros [hlo1 c1] [hlo2 c2] Hin1 Hin2 Hle1 Hle2. simpl in *.
      apply elem_of_report_items in Hin1 as [Hlookup1 Hparent1].
      apply elem_of_report_items in Hin2 as [Hlookup2 Hparent2].
      assert (c1 = c2) as -> by lia.
      by rewrite (Hdistinct hlo1 hlo2 c2 Hlookup1 Hlookup2 Hparent1 Hparent2).
    - apply report_items_sorted.
    - apply report_items_sorted.
    - by rewrite !report_items_perm. }
  split; [exact Hitems |].
  unfold ToString.
  change (@std_sort sorting1 _ custom_less
            (collect_items computation
               (@iterate order1 (hlo_to_cycles_taken_ p))))
    with (@report_items graph order1 sorting1 p computation).
  change (@std_sort sorting2 _ custom_less
            (collect_items computation
               (@iterate order2 (hlo_to_cycles_taken_ p))))
    with (@report_items graph order2 sorting2 p computation).
  by rewrite Hitems.
Qed.

(** X13: without ties the returned text depends on the profile only
    through the observations of the queried computation: two profiles that
    agree on them give the same text, whatever else they hold, so recording
    instructions of other computations does not change the report. *)
Theorem report_depends_on_own_observations
    (graph : HloGraph) (arith : DoubleArith) (analysis : CostAnalysisPass)
    (formatters : Formatters) (tables : MetricTable)
    (order : UnorderedIteration) (sorting : StdSort)
    (p q : HloExecutionProfile) (computation : N)
    (device_description : DeviceDescription) (shape_size : ShapeSizeFunction) :
  observations_of p computation = observations_of q computation →
  (∀ hlo1 hlo2 cycles,
     observations_of p computation !! hlo1 = Some cycles →
     observations_of p computation !! hlo2 = Some cycles →
     hlo1 = hlo2) →
  report_items p computation = report_items q computation
  ∧ ToString p computation device_description shape_size
    = ToString q computation device_description shape_size
  ∧ ∀ hlo cycles,
      parent hlo ≠ computation →
      observations_of (AddProfileResult hlo cycles p) computation
      = observations_of p computation.
Proof.
  intros Hsame Hdistinct.
  assert (report_items p computation = report_items q computation) as Hitems.
  { apply (StronglySorted_unique_strong
             (λ earlier later : Item, later.2 ≤ earlier.2)).
    - intros [hlo1 c1] [hlo2 c2] Hin1 Hin2 Hle1 Hle2. simpl in *.
      apply elem_of_report_items in Hin1 as [Hlookup1 Hparent1].
      apply elem_of_report_items in Hin2 as [Hlookup2 Hparent2].
      assert (observations_of p computation !! hlo1 = Some c1) as Hobs1.
      { unfold observations_of. by apply map_lookup_filter_Some. }
      assert (observations_of p computation !! hlo2 = Some c2) as Hobs2.
      { rewrite Hsame. unfold observations_of. by apply map_lookup_filter_Some. }
      assert (c1 = c2) as -> by lia.
      by rewrite (Hdistinct hlo1 hlo2 c2 Hobs1 Hobs2).
    - apply report_items_sorted.
    - apply report_items_sorted.
    - by rewrite !report_items_perm, Hsame. }
  split_and!.
  - exact Hitems.
  - unfold ToString.
    change (std_sort custom_less
              (collect_items computation (iterate (hlo_to_cycles_taken_ p))))
      with (report_items p computation).
    change (std_sort custom_less
              (collect_items computation (iterate (hlo_to_cycles_taken_ q))))
      with (report_items q computation).
    by rewrite Hitems.
  - intros hlo cycles Hother. unfold observations_of. simpl.
    by apply map_filter_insert_not.
Qed.

(** ** The further properties at the small graph *)

Section further_at_small_graph.
#[local] Existing Instances small_graph float_arith small_analysis
  plain_formatters list_table map_order front_std_sort.

Lemma small_profile_counts_differ (hlo1 hlo2 : N) (cycles : Z) :
  hlo_to_cycles_taken_ small_profile !! hlo1 = Some cycles →
  hlo_to_cycles_taken_ small_profile !! hlo2 = Some cycles →
  hlo1 = hlo2.
Proof.
  unfold small_profile. simpl.
  rewrite !lookup_insert_Some, !lookup_empty.
  intros [[<- <-]|[_ [[<- <-]|[_ [[<- <-]|[_ [=]]]]]]]
         [[<- ?]|[_ [[<- ?]|[_ [[<- ?]|[_ [=]]]]]]]; done.
Defined.

Lemma ToString_outcome_witness :
  ok (Accept any_shape_size (root_instruction 10%N)).1 = true
  ∧ fge (clock_rate_ghz one_ghz) (dlit 1 (-9)) = true
  ∧ ∃ rest,
      ToString small_profile 10%N one_ghz any_shape_size
      = Returns ("HLO execution profile for " +:+ name 10%N +:+ rest).
Proof.
  split_and!; [reflexivity | vm_compute; reflexivity |].
  exact (proj2 (proj2 (ToString_outcome small_profile 10%N one_ghz
                         any_shape_size))
           small_analysis_ok one_ghz_passes_check).
Defined.

Lemma GetProfileResult_after_calls_witness :
  run [CallAddProfileResult 1%N 100; CallGetProfileResult 1%N;
       CallAddProfileResult 2%N 5; CallToString 10%N one_ghz any_shape_size;
       CallAddProfileResult 1%N 7] empty_profile
  = Some (AddProfileResult 1%N 7
            (AddProfileResult 2%N 5 (AddProfileResult 1%N 100 empty_profile)))
  ∧ GetProfileResult 1%N
      (AddProfileResult 1%N 7
         (AddProfileResult 2%N 5 (AddProfileResult 1%N 100 empty_profile)))
    = 7.
Proof.
  assert (run [CallAddProfileResult 1%N 100; CallGetProfileResult 1%N;
               CallAddProfileResult 2%N 5;
               CallToString 10%N one_ghz any_shape_size;
               CallAddProfileResult 1%N 7] empty_profile
          = Some (AddProfileResult 1%N 7
                    (AddProfileResult 2%N 5
                       (AddProfileResult 1%N 100 empty_profile)))) as Hrun
    by (vm_compute; reflexivity).
  split; [exact Hrun |].
  exact (proj1 (proj2 (GetProfileResult_after_calls 1%N _ _ _ Hrun))).
Defined.

Lemma profiled_iff_recorded_witness :
  run [CallAddProfileResult 1%N 100; CallAddProfileResult 3%N 7] empty_profile
  = Some (AddProfileResult 3%N 7 (AddProfileResult 1%N 100 empty_profile))
  ∧ (30%N ∈ profiled_computations_
             (AddProfileResult 3%N 7 (AddProfileResult 1%N 100 empty_profile))
     ↔ report_items
         (AddProfileResult 3%N 7 (AddProfileResult 1%N 100 empty_profile))
         30%N ≠ []).
Proof.
  assert (run [CallAddProfileResult 1%N 100; CallAddProfileResult 3%N 7]
            empty_profile
          = Some (AddProfileResult 3%N 7
                    (AddProfileResult 1%N 100 empty_profile))) as Hrun
    by reflexivity.
  split; [exact Hrun |].
  exact (proj2 (profiled_iff_recorded _ _ Hrun 30%N)).
Defined.

Lemma AddProfileResult_commute_witness :
  1%N ≠ 2%N
  ∧ AddProfileResult 1%N 100 (AddProfileResult 2%N 300 empty_profile)
    = AddProfileResult 2%N 300 (AddProfileResult 1%N 100 empty_profile).
Proof.
  assert (1%N ≠ 2%N) as Hne by discriminate.
  split; [exact Hne |].
  exact (AddProfileResult_commute 1%N 2%N 100 300 empty_profile Hne).
Defined.

Lemma report_unchanged_by_other_computation_witness :
  parent 3%N ≠ 10%N
  ∧ observations_of
      (AddProfileResult 3%N 7 (AddProfileResult 1%N 100 empty_profile)) 10%N
    = observations_of (AddProfileResult 1%N 100 empty_profile) 10%N.
Proof.
  assert (parent 3%N ≠ 10%N) as Hother by (vm_compute; discriminate).
  split; [exact Hother |].
  exact (proj1 (report_unchanged_by_other_computation
                  (AddProfileResult 1%N 100 empty_profile) 3%N 7 10%N Hother)).
Defined.

Lemma ToString_without_observations_witness :
  ok (Accept any_shape_size (root_instruction 10%N)).1 = true
  ∧ fge (clock_rate_ghz one_ghz) (dlit 1 (-9)) = true
  ∧ (∀ hlo, is_Some (hlo_to_cycles_taken_ empty_profile !! hlo) →
            parent hlo ≠ 10%N)
  ∧ report_items empty_profile 10%N = [].
Proof.
  assert (∀ hlo, is_Some (hlo_to_cycles_taken_ empty_profile !! hlo) →
                 parent hlo ≠ 10%N) as Hnone.
  { intros hlo [cycles Hlookup]. simpl in Hlookup.
    rewrite lookup_empty in Hlookup. discriminate. }
  split_and!; [reflexivity | vm_compute; reflexivity | exact Hnone |].
  exact (proj1 (ToString_without_observations empty_profile 10%N one_ghz
                  any_shape_size small_analysis_ok one_ghz_passes_check Hnone)).
Defined.

Lemma huge_count_row_witness :
  2 ^ 63 ≤ (1%N, 2 ^ 63).2 < 2 ^ 64
  ∧ row_cycles (item_row (Accept any_shape_size 11%N).2 (1%N, 2 ^ 63))
    = - 2 ^ 63
  ∧ bandwidth_fields (clock_rate_ghz one_ghz)
      (row_cycles (item_row (Accept any_shape_size 11%N).2 (1%N, 2 ^ 63)))
      (row_bytes_accessed
         (item_row (Accept any_shape_size 11%N).2 (1%N, 2 ^ 63)))
    = (unknown, unknown).
Proof.
  assert (2 ^ 63 ≤ (1%N, 2 ^ 63).2 < 2 ^ 64) as Hhuge by (simpl; lia).
  destruct (proj1 (huge_count_row (Accept any_shape_size 11%N).2
                     (clock_rate_ghz one_ghz) (1%N, 2 ^ 63)) Hhuge)
    as (Hrow & _ & Hfields & _).
  split; [exact Hhuge |]. split; [| exact Hfields].
  rewrite Hrow. reflexivity.
Defined.

Lemma bytes_per_cycle_is_floor_witness :
  0 < 300 ∧ 0 ≤ 96
  ∧ ∃ q,
      (bandwidth_fields (clock_rate_ghz one_ghz) 300 96).2
      = HumanReadableNumBytes q
      ∧ q * 300 ≤ 96 < (q + 1) * 300
      ∧ (96 < 300 → q = 0).
Proof.
  assert (0 < 300) as Hcycles by lia.
  assert (0 ≤ 96) as Hbytes by lia.
  split_and!; [exact Hcycles | exact Hbytes |].
  exact (bytes_per_cycle_is_floor (clock_rate_ghz one_ghz) 300 96
           Hcycles Hbytes).
Defined.

Lemma report_determined_without_ties_witness :
  @report_items small_graph map_order front_std_sort small_profile 10%N
  = @report_items small_graph reverse_order back_std_sort small_profile 10%N
  ∧ @ToString small_graph float_arith small_analysis plain_formatters
      list_table map_order front_std_sort
      small_profile 10%N one_ghz any_shape_size
    = @ToString small_graph float_arith small_analysis plain_formatters
        list_table reverse_order back_std_sort
        small_profile 10%N one_ghz any_shape_size.
Proof.
  exact (report_determined_without_ties small_graph float_arith small_analysis
           plain_formatters list_table map_order reverse_order
           front_std_sort back_std_sort small_profile 10%N one_ghz
           any_shape_size
           (λ hlo1 hlo2 cycles H1 H2 _ _,
              small_profile_counts_differ hlo1 hlo2 cycles H1 H2)).
Defined.

Lemma small_observations_differ (hlo1 hlo2 : N) (cycles : Z) :
  observations_of (AddProfileResult 1%N 100 empty_profile) 10%N !! hlo1
  = Some cycles →
  observations_of (AddProfileResult 1%N 100 empty_profile) 10%N !! hlo2
  = Some cycles →
  hlo1 = hlo2.
Proof.
  unfold observations_of. rewrite !map_lookup_filter_Some. simpl.
  rewrite !lookup_insert_Some, !lookup_empty.
  intros [[[<- _]|[_ [=]]] _] [[[<- _]|[_ [=]]] _]. reflexivity.
Defined.

Lemma report_depends_on_own_observations_witness :
  observations_of (AddProfileResult 1%N 100 empty_profile) 10%N
  = observations_of
      (AddProfileResult 3%N 7 (AddProfileResult 1%N 100 empty_profile)) 10%N
  ∧ ToString (AddProfileResult 1%N 100 empty_profile)
      10%N one_ghz any_shape_size
    = ToString
        (AddProfileResult 3%N 7 (AddProfileResult 1%N 100 empty_profile))
        10%N one_ghz any_shape_size.
Proof.
  assert (observations_of (AddProfileResult 1%N 100 empty_profile) 10%N
          = observations_of
              (AddProfileResult 3%N 7
                 (AddProfileResult 1%N 100 empty_profile)) 10%N) as Hsame.
  { symmetry. unfold observations_of. simpl.
    apply map_filter_insert_not. intros cycles. vm_compute. discriminate. }
  split; [exact Hsame |].
  exact (proj1 (proj2 (report_depends_on_own_observations
                         small_graph float_arith small_analysis
                         plain_formatters list_table map_order front_std_sort
                         _ _ 10%N one_ghz any_shape_size
                         Hsame small_observations_differ))).
Defined.

End further_at_small_graph.
